(** * ChemTools: the rational energy model and the local reactivity layer

    A shallow embedding of [chemtools/conceptual/rational.py]
    ([RationalGlobalTool]) and of the parts of the global and local tools
    that the specification describes, with the properties of the
    specification stated and settled against it.

    Numbers.  The program computes with Python floats: the electron counts and
    the energies of the samples are floats, as in the tests.  The embedding is
    the exact-arithmetic idealisation: a finite number is a canonical rational
    ([Qc]), there is no rounding and no overflow, and a division whose divisor
    is zero raises [ZeroDivisionError], as [/] does on Python floats.  The
    non-finite floats a caller can pass as an electron count ([inf], [-inf],
    [nan]) are kept as separate values.  The concrete inputs below are dyadic
    rationals wherever an outcome of the program is read off them, so that
    the float computation is exact on them too. *)

From Stdlib Require Import QArith Qcanon Field Lqa.
From stdpp Require Import base numbers option list sorting strings gmap.

Local Open Scope Qc_scope.

(** ** Python values *)

(** A Python float: a finite number or one of the three non-finite values. *)
Inductive pyfloat : Type :=
  | Fin (q : Qc)
  | PInf
  | NInf
  | NaN.

(** The objects that reach the [order] argument of [energy_derivative]:
    [int], [bool] (a subclass of [int]), [float], [str], [list], [None]. *)
Inductive pyobj : Type :=
  | PyInt (z : Z)
  | PyBool (b : bool)
  | PyFloat (x : pyfloat)
  | PyStr (s : string)
  | PyList (l : list Z)
  | PyNone.

(** The [raise] sites of rational.py, one constructor each, with the data the
    message is formatted from; and the error of a division by zero. *)
Inductive value_error : Type :=
  | RequiresThreePositive
  | N0LessThanOne (n0 : Qc)
  | NotUnitSpaced
  | NotMonotonic (energies : list Qc)
  | NegativeElectrons (n_elec : pyfloat)
  | BadOrder.

Inductive exn : Type :=
  | ValueError (e : value_error)
  | ZeroDivisionError.

(** The two [log.warn] sites. *)
Inductive warning : Type :=
  | EnergyOutside (n_elec : pyfloat) (lo hi : Qc)
  | DerivativeOutside (n_elec : pyfloat) (lo hi : Qc).

(** ** Computations that may warn and may raise

    A call returns the warnings it logged, in order, and either the exception
    it raised or its value.  A warning logged before a [raise] stays logged. *)
Definition M (A : Type) : Type := list warning * (exn + A).

Definition ret {A} (a : A) : M A := ([], inr a).
Definition raise {A} (e : exn) : M A := ([], inl e).
Definition warn (w : warning) : M unit := ([w], inr tt).
Definition bind {A B} (k : A → M B) (c : M A) : M B :=
  match c with
  | (ws, inl e) => (ws, inl e)
  | (ws, inr a) => let '(ws', r) := k a in (ws ++ ws', r)
  end.

(** stdpp's notations [x ← c; k] and [c;; k] for sequencing. *)
Global Instance M_ret : MRet M := @ret.
Global Instance M_bind : MBind M := @bind.

(** [if cond: raise e] and [if cond: log.warn(w)]. *)
Definition raise_if (cond : bool) (e : exn) : M unit :=
  if cond then raise e else ret tt.
Definition warn_if (cond : bool) (w : warning) : M unit :=
  if cond then warn w else ret tt.

Definition returns {A} (c : M A) (a : A) : Prop := c.2 = inr a.
Definition raises {A} (c : M A) (e : exn) : Prop := c.2 = inl e.
Definition warnings {A} (c : M A) : list warning := c.1.

(** ** Arithmetic *)

Definition qz (z : Z) : Qc := Qc_of_Z z.
Definition qfrac (a : Z) (b : positive) : Qc := Q2Qc (a # b).

(** [x / y] on finite numbers: raises when the divisor is zero. *)
Definition pydiv (x y : Qc) : M Qc :=
  if decide (y = 0) then raise ZeroDivisionError else mret (x / y).

(** [math.factorial]. *)
Definition factorial (n : nat) : Qc := qz (Z.of_nat (fact n)).

(** Float arithmetic with the non-finite values: [nan] propagates,
    [inf - inf], [0 * inf] and [inf / inf] are [nan], and [/] raises on a
    zero divisor whatever the dividend is. *)
Definition fopp (x : pyfloat) : pyfloat :=
  match x with
  | Fin p => Fin (- p)
  | PInf => NInf
  | NInf => PInf
  | NaN => NaN
  end.

Definition fadd (x y : pyfloat) : pyfloat :=
  match x, y with
  | NaN, _ | _, NaN => NaN
  | Fin p, Fin q => Fin (p + q)
  | PInf, NInf | NInf, PInf => NaN
  | PInf, _ | _, PInf => PInf
  | NInf, _ | _, NInf => NInf
  end.

(** The infinity with the sign of [q]; [nan] for [q = 0]. *)
Definition signed_inf (q : Qc) : pyfloat :=
  if decide (q = 0) then NaN else if decide (0 < q) then PInf else NInf.

Definition fmul (x y : pyfloat) : pyfloat :=
  match x, y with
  | NaN, _ | _, NaN => NaN
  | Fin p, Fin q => Fin (p * q)
  | Fin p, PInf | PInf, Fin p => signed_inf p
  | Fin p, NInf | NInf, Fin p => signed_inf (- p)
  | PInf, PInf | NInf, NInf => PInf
  | PInf, NInf | NInf, PInf => NInf
  end.

Definition fdiv (x y : pyfloat) : M pyfloat :=
  match x, y with
  | Fin p, Fin q => q' ← pydiv p q; mret (Fin q')
  | _, Fin q =>
      if decide (q = 0) then raise ZeroDivisionError
      else mret (fmul x (Fin (/ q)))
  | NaN, _ | _, NaN => mret NaN
  | Fin _, (PInf | NInf) => mret (Fin 0)
  | (PInf | NInf), (PInf | NInf) => mret NaN
  end.

(** [x ** n] for an integer exponent [n >= 0]; [x ** 0] is 1 for every [x]. *)
Fixpoint fpow (x : pyfloat) (n : nat) : pyfloat :=
  match n with
  | O => Fin 1
  | S k => fmul x (fpow x k)
  end.

(** Comparisons of a float with a finite number ([nan] compares false). *)
Definition flt (x : pyfloat) (q : Qc) : bool :=
  match x with
  | Fin p => bool_decide (p < q)
  | NInf => true
  | PInf | NaN => false
  end.
Definition fle (x : pyfloat) (q : Qc) : bool :=
  match x with
  | Fin p => bool_decide (p ≤ q)
  | NInf => true
  | PInf | NaN => false
  end.
Definition fge (x : pyfloat) (q : Qc) : bool :=
  match x with
  | Fin p => bool_decide (q ≤ p)
  | PInf => true
  | NInf | NaN => false
  end.

(** [np.isinf]. *)
Definition isinf (x : pyfloat) : bool :=
  match x with
  | PInf | NInf => true
  | Fin _ | NaN => false
  end.

(** ** The order argument *)

(** [isinstance(order, int)]: [bool] is a subclass of [int]. *)
Definition isinstance_int (o : pyobj) : bool :=
  match o with
  | PyInt _ | PyBool _ => true
  | _ => false
  end.

(** The number an [int] instance stands for in arithmetic and comparisons:
    [True] is 1 and [False] is 0. *)
Definition int_value (o : pyobj) : Z :=
  match o with
  | PyInt z => z
  | PyBool b => if b then 1%Z else 0%Z
  | _ => 0%Z
  end.

(** ** The model object *)

(** The attributes of a constructed [RationalGlobalTool] that the methods of
    rational.py read: [_params = [a0, a1, b1]], [_n0], [_n_max]. *)
Record RationalGlobalTool : Type := mkTool {
  _params : list Qc;
  _n0 : Qc;
  _n_max : pyfloat
}.

(** Modelled from the spec: [BaseGlobalTool.__init__] (chemtools/conceptual/base.py
    is not among the sources).  The specification has the tool own the fitted
    model with its reference count N0 and the asymptote [n_max], every
    descriptor being computed on demand; so the base constructor, called as
    [super().__init__(dict_energy, n0, n_max)] on an object that already has
    [_params], stores [n0] and [n_max] and raises nothing. *)
Definition BaseGlobalTool_init (self_params : list Qc) (dict_energy : gmap Qc Qc)
    (n0 : Qc) (n_max : pyfloat) : M RationalGlobalTool :=
  mret (mkTool self_params n0 n_max).

(** The property [params]. *)
Definition params (self : RationalGlobalTool) : list Qc := _params self.

(** [self._params[i]]; the list always has three entries. *)
Definition param (self : RationalGlobalTool) (i : nat) : Qc :=
  default 0 (_params self !! i).

(** ** [RationalGlobalTool.__init__] *)

(** [dict_energy.keys()] and [sorted(dict_energy.keys())]. *)
Definition keys (dict_energy : gmap Qc Qc) : list Qc := (map_to_list dict_energy).*1.
Definition sorted_keys (dict_energy : gmap Qc Qc) : list Qc :=
  merge_sort Qcle (keys dict_energy).

(** [all([key >= 0 for key in dict_energy.keys()])]. *)
Definition all_keys_nonnegative (dict_energy : gmap Qc Qc) : bool :=
  forallb (λ key, bool_decide (0 ≤ key)) (keys dict_energy).

(** [dict_energy[n]] for a key [n] of the dictionary. *)
Definition getitem (dict_energy : gmap Qc Qc) (n : Qc) : Qc :=
  default 0 (dict_energy !! n).

Definition init (dict_energy : gmap Qc Qc) : M RationalGlobalTool :=
  raise_if (negb (bool_decide (size dict_energy = 3%nat))
            || negb (all_keys_nonnegative dict_energy))
           (ValueError RequiresThreePositive);;
  let n0 := default 0 (sorted_keys dict_energy !! 1%nat) in
  raise_if (bool_decide (n0 < 1)) (ValueError (N0LessThanOne n0));;
  raise_if (negb (bool_decide (sorted_keys dict_energy = [n0 - 1; n0; n0 + 1])))
           (ValueError NotUnitSpaced);;
  let energies := getitem dict_energy <$> sorted_keys dict_energy in
  let energy_m := default 0 (energies !! 0%nat) in
  let energy_0 := default 0 (energies !! 1%nat) in
  let energy_p := default 0 (energies !! 2%nat) in
  raise_if (negb (bool_decide (energy_0 < energy_m) && bool_decide (energy_p ≤ energy_0)))
           (ValueError (NotMonotonic [energy_m; energy_0; energy_p]));;
  let b1 := - (energy_p - 2 * energy_0 + energy_m) in
  b1 ← pydiv b1 ((n0 + 1) * energy_p - 2 * n0 * energy_0 + (n0 - 1) * energy_m);
  let a1 := (1 + b1 * n0) * (energy_p - energy_0) + (b1 * energy_p) in
  let a0 := - a1 * n0 + energy_0 * (1 + b1 * n0) in
  let _params := [a0; a1; b1] in
  let n_max := PInf in
  BaseGlobalTool_init _params dict_energy n0 n_max.

(** ** [RationalGlobalTool.energy] *)

Definition energy (self : RationalGlobalTool) (n_elec : pyfloat) : M pyfloat :=
  raise_if (flt n_elec 0) (ValueError (NegativeElectrons n_elec));;
  warn_if (negb (fge n_elec (_n0 self - 1) && fle n_elec (_n0 self + 1)))
          (EnergyOutside n_elec (_n0 self - 1) (_n0 self + 1));;
  if isinf n_elec then
    value ← pydiv (param self 1) (param self 2); mret (Fin value)
  else
    fdiv (fadd (Fin (param self 0)) (fmul (Fin (param self 1)) n_elec))
         (fadd (Fin 1) (fmul (Fin (param self 2)) n_elec)).

(** ** [RationalGlobalTool.energy_derivative]

    The three assignments of lines 119-121 are computed in exact arithmetic.
    On Python floats the same lines have one more outcome, [OverflowError]:
    [math.factorial(order)] is an [int] that [*] converts to a float, which
    fails for every order from 171 on, and [**] fails when the power leaves
    the float range.  The embedding has no overflow, so that outcome is
    outside it: every property of the derivative at a finite or not-a-number
    electron count is a property of the exact computation.  The checks before
    line 119 and the branch of infinity do no such arithmetic. *)

Definition energy_derivative (self : RationalGlobalTool) (n_elec : pyfloat)
    (order : pyobj) : M pyfloat :=
  raise_if (flt n_elec 0) (ValueError (NegativeElectrons n_elec));;
  warn_if (negb (fge n_elec (_n0 self - 1) && fle n_elec (_n0 self + 1)))
          (DerivativeOutside n_elec (_n0 self - 1) (_n0 self + 1));;
  raise_if (negb (isinstance_int order && bool_decide (0 < int_value order)%Z))
           (ValueError BadOrder);;
  if isinf n_elec then
    mret (Fin 0)
  else
    let order := int_value order in
    let deriv := fpow (Fin (- param self 2)) (Z.to_nat (order - 1)) in
    let deriv := fmul deriv (Fin ((param self 1 - param self 0 * param self 2)
                                  * factorial (Z.to_nat order))) in
    fdiv deriv (fpow (fadd (Fin 1) (fmul (Fin (param self 2)) n_elec))
                     (Z.to_nat (order + 1))).

(** [energy_derivative(n_elec)] with the default [order=1]. *)
Definition energy_derivative_default (self : RationalGlobalTool) (n_elec : pyfloat)
  : M pyfloat :=
  energy_derivative self n_elec (PyInt 1).

(** ** The grand potential of the global tool *)

Section GrandPotential.

(** Modelled from the spec: [BaseGlobalTool.grand_potential] and
    [BaseGlobalTool.grand_potential_derivative] (chemtools/conceptual/base.py
    is not among the sources).  The specification gives
    [grand_potential(N) = E(N) - N * dE(N)]; for the derivative, order 1
    returns [-N], order 2 is [-1 / d2E(N)], and the tests of rational.py give
    order 3 as [d3E(N) / d2E(N)**3].  The composition for the orders from 4
    on is left open by the specification and is a parameter here. *)
Variable higher_order : RationalGlobalTool → pyfloat → positive → M pyfloat.

Definition grand_potential (self : RationalGlobalTool) (n_elec : pyfloat)
  : M pyfloat :=
  e ← energy self n_elec;
  de ← energy_derivative self n_elec (PyInt 1);
  mret (fadd e (fopp (fmul n_elec de))).

Definition grand_potential_derivative (self : RationalGlobalTool)
    (n_elec : pyfloat) (order : positive) : M pyfloat :=
  match order with
  | 1%positive => mret (fopp n_elec)
  | 2%positive =>
      d2 ← energy_derivative self n_elec (PyInt 2);
      fdiv (Fin (-1)) d2
  | 3%positive =>
      d3 ← energy_derivative self n_elec (PyInt 3);
      d2 ← energy_derivative self n_elec (PyInt 2);
      fdiv d3 (fpow d2 3)
  | _ => higher_order self n_elec order
  end.

End GrandPotential.

(** ** The local reactivity tool *)

Module LocalTool.
Section Local.

(** Modelled from the spec: the local reactivity tool
    (chemtools/tools/local.py is not among the sources; only its test is).
    The tool owns two optional per-point arrays, FF+ and FF-, and an optional
    global tool; [ff_zero = (ff_plus + ff_minus) / 2] and
    [dual_descriptor = ff_plus - ff_minus] need both arrays; every other
    local descriptor is a scalar of the global tool times one of the three
    Fukui arrays, element by element; a descriptor whose input is absent is
    [None].  The global tool and its catalogue of scalars ([ip], [eta],
    [nucleofugality], ...) are parameters. *)
Variable global_tool : Type.
Variable scalar_name : Type.
Variable scalar : global_tool → scalar_name → Qc.

Record t : Type := mk {
  _ff_plus : option (list Qc);
  _ff_minus : option (list Qc);
  _global : option global_tool
}.

(** [QuadraticLocalTool()]: every argument defaults to [None]. *)
Definition empty : t := mk None None None.

Inductive fukui : Type := Plus | Minus | Zero.

Inductive descriptor : Type :=
  | FF (f : fukui)
  | DualDescriptor
  | Scaled (s : scalar_name) (f : fukui).

Definition ff_zero (self : t) : option (list Qc) :=
  match _ff_plus self, _ff_minus self with
  | Some p, Some m => Some (zip_with (λ x y, (x + y) / 2) p m)
  | _, _ => None
  end.

Definition dual_descriptor (self : t) : option (list Qc) :=
  match _ff_plus self, _ff_minus self with
  | Some p, Some m => Some (zip_with (λ x y, x - y) p m)
  | _, _ => None
  end.

Definition ff (self : t) (f : fukui) : option (list Qc) :=
  match f with
  | Plus => _ff_plus self
  | Minus => _ff_minus self
  | Zero => ff_zero self
  end.

Definition scaled (self : t) (s : scalar_name) (f : fukui) : option (list Qc) :=
  match _global self, ff self f with
  | Some g, Some a => Some (map (λ x, scalar g s * x) a)
  | _, _ => None
  end.

Definition eval (self : t) (d : descriptor) : option (list Qc) :=
  match d with
  | FF f => ff self f
  | DualDescriptor => dual_descriptor self
  | Scaled s f => scaled self s f
  end.

(** The inputs of the constructor and the ones each descriptor needs. *)
Inductive input : Type := FFPlus | FFMinus | GlobalInstance.

Definition present (self : t) (i : input) : bool :=
  match i with
  | FFPlus => bool_decide (is_Some (_ff_plus self))
  | FFMinus => bool_decide (is_Some (_ff_minus self))
  | GlobalInstance => bool_decide (is_Some (_global self))
  end.

Definition fukui_inputs (f : fukui) : list input :=
  match f with
  | Plus => [FFPlus]
  | Minus => [FFMinus]
  | Zero => [FFPlus; FFMinus]
  end.

Definition required (d : descriptor) : list input :=
  match d with
  | FF f => fukui_inputs f
  | DualDescriptor => [FFPlus; FFMinus]
  | Scaled _ f => GlobalInstance :: fukui_inputs f
  end.

End Local.
End LocalTool.

(** ** What the specification says about the input of the constructor *)

(** The mapping of the three samples at [n0 - 1], [n0] and [n0 + 1]. *)
Definition triple (n0 energy_m energy_0 energy_p : Qc) : gmap Qc Qc :=
  {[ n0 - 1 := energy_m; n0 := energy_0; n0 + 1 := energy_p ]}.

(** A mapping of three samples, its electron counts in increasing order. *)
Definition samples (d : gmap Qc Qc) (lo mid hi e_lo e_mid e_hi : Qc) : Prop :=
  d = {[ lo := e_lo; mid := e_mid; hi := e_hi ]} ∧ lo < mid ∧ mid < hi.

(** The five conditions of the validation, each as the way to violate it. *)
Inductive condition : Type :=
  | ThreeSamples
  | CountsNonNegative
  | UnitSpaced
  | N0AtLeastOne
  | EnergiesMonotonic.

Definition violated (c : condition) (d : gmap Qc Qc) : Prop :=
  match c with
  | ThreeSamples => size d ≠ 3%nat
  | CountsNonNegative => ∃ k, is_Some (d !! k) ∧ k < 0
  | UnitSpaced => ¬ ∃ n0 e_m e_0 e_p, d = triple n0 e_m e_0 e_p
  | N0AtLeastOne =>
      ∃ lo n0 hi e_m e_0 e_p, samples d lo n0 hi e_m e_0 e_p ∧ n0 < 1
  | EnergiesMonotonic =>
      ∃ lo n0 hi e_m e_0 e_p,
        samples d lo n0 hi e_m e_0 e_p ∧ ¬ (e_0 < e_m ∧ e_p ≤ e_0)
  end.

(** The raised error identifies the condition that failed: some reading
    [which] of the errors names, for every rejected input, a condition that
    the input violates. *)
Definition identifies (which : value_error → condition) : Prop :=
  ∀ d e, raises (init d) (ValueError e) → violated (which e) d.

(** What each error of the constructor says about the input. *)
Definition explains (e : value_error) (d : gmap Qc Qc) : Prop :=
  match e with
  | RequiresThreePositive => violated ThreeSamples d ∨ violated CountsNonNegative d
  | N0LessThanOne n0 =>
      ∃ lo hi e_m e_0 e_p, samples d lo n0 hi e_m e_0 e_p ∧ n0 < 1
  | NotUnitSpaced => violated UnitSpaced d
  | NotMonotonic energies =>
      ∃ lo n0 hi e_m e_0 e_p,
        samples d lo n0 hi e_m e_0 e_p ∧ energies = [e_m; e_0; e_p]
        ∧ ¬ (e_0 < e_m ∧ e_p ≤ e_0)
  | NegativeElectrons _ | BadOrder => False
  end.

(** The fit reproduces the three samples it was made from. *)
Definition reproduces (n0 energy_m energy_0 energy_p : Qc) : Prop :=
  ∃ m, init (triple n0 energy_m energy_0 energy_p) = ([], inr m)
       ∧ energy m (Fin (n0 - 1)) = ([], inr (Fin energy_m))
       ∧ energy m (Fin n0) = ([], inr (Fin energy_0))
       ∧ energy m (Fin (n0 + 1)) = ([], inr (Fin energy_p)).

(** The denominator of [b1] in the closed-form solution. *)
Definition b1_denominator (n0 energy_m energy_0 energy_p : Qc) : Qc :=
  (n0 + 1) * energy_p - 2 * n0 * energy_0 + (n0 - 1) * energy_m.

(** The closed-form solution of the interpolation system, by substitution. *)
Definition closed_form (n0 energy_m energy_0 energy_p : Qc) : list Qc :=
  let b1 := - (energy_p - 2 * energy_0 + energy_m)
            / b1_denominator n0 energy_m energy_0 energy_p in
  let a1 := (1 + b1 * n0) * (energy_p - energy_0) + b1 * energy_p in
  let a0 := - a1 * n0 + energy_0 * (1 + b1 * n0) in
  [a0; a1; b1].

(** The closed form of the [order]-th derivative. *)
Definition derivative_formula (a0 a1 b1 n : Qc) (order : nat) : Qc :=
  (- b1) ^ (order - 1) * (a1 - a0 * b1) * factorial order
  / (1 + b1 * n) ^ (order + 1).

(** The sign of an electron count, and the interpolation interval. *)
Definition negative (n_elec : pyfloat) : Prop :=
  match n_elec with
  | Fin q => q < 0
  | NInf => True
  | PInf | NaN => False
  end.

Definition nonnegative (n_elec : pyfloat) : Prop :=
  match n_elec with
  | Fin q => 0 ≤ q
  | PInf => True
  | NInf | NaN => False
  end.

Definition interpolated (self : RationalGlobalTool) (q : Qc) : Prop :=
  _n0 self - 1 ≤ q ∧ q ≤ _n0 self + 1.

(** The electron counts at which the evaluation of the model divides by a
    number that is not zero: [1 + b1 * N] at a finite N, [b1] at infinity. *)
Definition regular (self : RationalGlobalTool) (n_elec : pyfloat) : Prop :=
  match n_elec with
  | Fin q => 1 + param self 2 * q ≠ 0
  | PInf => param self 2 ≠ 0
  | NInf | NaN => True
  end.

(** The electron counts of the interpolation interval [n0 - 1, n0 + 1]. *)
Definition inside (self : RationalGlobalTool) (n_elec : pyfloat) : Prop :=
  match n_elec with
  | Fin q => interpolated self q
  | _ => False
  end.

(** The evaluation of the rational function by direct substitution of the
    electron count. *)
Definition direct_substitution (self : RationalGlobalTool) (n_elec : pyfloat)
  : M pyfloat :=
  fdiv (fadd (Fin (param self 0)) (fmul (Fin (param self 1)) n_elec))
       (fadd (Fin 1) (fmul (Fin (param self 2)) n_elec)).

(** An order the specification calls a positive integer. *)
Definition positive_integer (order : pyobj) : Prop :=
  ∃ z, (0 < z)%Z ∧ order = PyInt z.

(** ** Concrete inputs *)

(** The scenario of the tests: E(N) = (0.5 - 2.2 N) / (1 + 0.7 N) sampled at
    1, 2 and 3, with the exact value -61/31 for the third energy. *)
Definition d_scenario : gmap Qc Qc :=
  triple (qz 2) (qz (-1)) (qfrac (-13) 8) (qfrac (-61) 31).
Definition m_scenario : RationalGlobalTool :=
  mkTool [qfrac 1 2; qfrac (-11) 5; qfrac 7 10] (qz 2) PInf.

(** Energies 4, 1, 0 at 1, 2, 3: the denominator of [b1] is zero. *)
Definition d_singular : gmap Qc Qc := triple (qz 2) (qz 4) (qz 1) (qz 0).

(** Energies 0, -1, -4 at 1, 2, 3: E(N) = (2 - 2 N) / (4 - N), with its pole
    at N = 4. *)
Definition d_pole : gmap Qc Qc := triple (qz 2) (qz 0) (qz (-1)) (qz (-4)).
Definition m_pole : RationalGlobalTool :=
  mkTool [qfrac 1 2; qfrac (-1) 2; qfrac (-1) 4] (qz 2) PInf.

(** Energies 0, -1, -2 at 1, 2, 3: the fit is the line E(N) = 1 - N. *)
Definition d_linear : gmap Qc Qc := triple (qz 2) (qz 0) (qz (-1)) (qz (-2)).
Definition m_linear : RationalGlobalTool :=
  mkTool [qz 1; qz (-1); qz 0] (qz 2) PInf.

(** Four samples, and three samples around N = 0. *)
Definition d_four : gmap Qc Qc :=
  {[ qz 1 := qz 4; qz 2 := qz 3; qz 3 := qz 2; qz 4 := qz 1 ]}.
Definition d_around_zero : gmap Qc Qc := triple (qz 0) (qz 3) (qz 2) (qz 1).

(** ** Decidable equality of outcomes *)

Global Instance pyfloat_eq_dec : EqDecision pyfloat.
Proof. solve_decision. Defined.
Global Instance pyobj_eq_dec : EqDecision pyobj.
Proof. solve_decision. Defined.
Global Instance value_error_eq_dec : EqDecision value_error.
Proof. solve_decision. Defined.
Global Instance exn_eq_dec : EqDecision exn.
Proof. solve_decision. Defined.
Global Instance warning_eq_dec : EqDecision warning.
Proof. solve_decision. Defined.
Global Instance RationalGlobalTool_eq_dec : EqDecision RationalGlobalTool.
Proof. solve_decision. Defined.
Global Instance M_eq_dec `{EqDecision A} : EqDecision (M A).
Proof. unfold M. apply _. Defined.
Global Instance returns_dec `{EqDecision A} (c : M A) (a : A) : Decision (returns c a).
Proof. unfold returns. apply _. Defined.
Global Instance raises_dec {A} `{EqDecision A} (c : M A) (e : exn) : Decision (raises c e).
Proof. unfold raises. apply _. Defined.
Global Instance negative_dec (n_elec : pyfloat) : Decision (negative n_elec).
Proof. destruct n_elec; simpl; apply _. Defined.
Global Instance nonnegative_dec (n_elec : pyfloat) : Decision (nonnegative n_elec).
Proof. destruct n_elec; simpl; apply _. Defined.
Global Instance regular_dec self (n_elec : pyfloat) : Decision (regular self n_elec).
Proof. destruct n_elec; simpl; apply _. Defined.
Global Instance inside_dec self (n_elec : pyfloat) : Decision (inside self n_elec).
Proof. destruct n_elec; simpl; apply _. Defined.

(** ** Definitions for the further properties *)

(** The rational function with the parameters [a0], [a1], [b1]. *)
Definition rational (a0 a1 b1 n : Qc) : Qc := (a0 + a1 * n) / (1 + b1 * n).

(** [1 + b1 * N] of the model fitted to three energies, times the denominator
    of [b1]: it is zero exactly at the pole of the fitted model. *)
Definition fitted_denominator_numerator (n0 e_m e_0 e_p q : Qc) : Qc :=
  (e_p - e_m) - (e_p - 2 * e_0 + e_m) * (q - n0).

(** The formula of the class docstring of [RationalGlobalTool] for the
    derivative of order [n]:
    [b1^(n-1) (a1 - a0 b1) n! / (1 + b1 N)^(2n)]. *)
Definition docstring_formula (a0 a1 b1 n : Qc) (order : nat) : Qc :=
  b1 ^ (order - 1) * (a1 - a0 * b1) * factorial order / (1 + b1 * n) ^ (2 * order).

(** [make_analytical_rational_grand_derivatives] of test_rational.py: from a
    function [deriv(n, r)] the pair of [lambda n: -1.0 / deriv(n, 2)] and
    [lambda n: deriv(n, 3) / deriv(n, 2)**3]. *)
Definition make_analytical_rational_grand_derivatives
    (deriv : pyfloat → Z → M pyfloat)
  : (pyfloat → M pyfloat) * (pyfloat → M pyfloat) :=
  (λ n, d2 ← deriv n 2%Z; fdiv (Fin (- 1)) d2,
   λ n, d3 ← deriv n 3%Z; d2 ← deriv n 2%Z; fdiv d3 (fpow d2 3)).

(** ** [AlchemicalTool] of toolbox/alchem.py *)

Module Alchem.

(** A numpy array, as far as the constructor looks at it: its [shape] (so
    that [ndim] is the length of the shape) and its values. *)
Record ndarray : Type := mkArray {
  shape : list nat;
  values : list Qc
}.

Definition ndim (a : ndarray) : nat := length (shape a).

Section Tool.

(** The collaborators, which are not part of the sources: the class
    [Molecule] with [Molecule.from_file] and [compute_density], the type of
    the densities they return and the errors they raise. *)
Variable Molecule : Type.
Variable density : Type.
Variable external_error : Type.
Variable Molecule_from_file : string → external_error + Molecule.
Variable compute_density : Molecule → ndarray → external_error + density.

Inductive exn : Type :=
  | ValueError
  | IndexError
  | External (e : external_error).

Record AlchemicalTool : Type := mkTool {
  _molecule : Molecule;
  _points : ndarray;
  _density : density
}.

(** [points.shape[i]]: a tuple index out of range raises [IndexError]. *)
Definition shape_at (points : ndarray) (i : nat) : exn + nat :=
  match shape points !! i with
  | Some c => inr c
  | None => inl IndexError
  end.

(** [points.ndim != 2 or points.shape[1] != 3]; [or] evaluates its second
    operand only when the first is false. *)
Definition not_three_columns (points : ndarray) : exn + bool :=
  if negb (ndim points =? 2)%nat then inr true
  else match shape_at points 1 with
       | inl e => inl e
       | inr c => inr (negb (c =? 3)%nat)
       end.

Definition init (molecule : Molecule) (points : ndarray) : exn + AlchemicalTool :=
  match not_three_columns points with
  | inl e => inl e
  | inr true => inl ValueError
  | inr false =>
      match compute_density molecule points with
      | inl e => inl (External e)
      | inr d => inr (mkTool molecule points d)
      end
  end.

(** The class methods [from_molecule] and [from_file]. *)
Definition from_molecule (molecule : Molecule) (points : ndarray)
  : exn + AlchemicalTool :=
  init molecule points.

Definition from_file (fname : string) (points : ndarray) : exn + AlchemicalTool :=
  match Molecule_from_file fname with
  | inl e => inl (External e)
  | inr molecule => init molecule points
  end.

End Tool.
End Alchem.

(** * Properties *)

(** ** Sequencing *)

Lemma bind_ret {A B} (a : A) (k : A → M B) : mret a ≫= k = k a.
Proof. unfold mbind, M_bind, mret, M_ret, bind, ret. by destruct (k a). Qed.

Lemma bind_raise {A B} (e : exn) (k : A → M B) : raise e ≫= k = raise e.
Proof. reflexivity. Qed.

Lemma raise_if_false {B} e (k : M B) : (raise_if false e;; k) = k.
Proof. unfold raise_if. apply bind_ret. Qed.

Lemma raise_if_true {B} e (k : M B) : (raise_if true e;; k) = ([], inl e).
Proof. reflexivity. Qed.

Lemma warn_if_false {B} w (k : M B) : (warn_if false w;; k) = k.
Proof. unfold warn_if. apply bind_ret. Qed.

Lemma warn_if_true {B} w (k : M B) : (warn_if true w;; k) = (w :: k.1, k.2).
Proof. unfold warn_if, warn, mbind, M_bind, bind. by destruct k. Qed.

Lemma pydiv_nonzero (x y : Qc) : y ≠ 0 → pydiv x y = ([], inr (x / y)).
Proof. intros Hy. unfold pydiv. by rewrite decide_False. Qed.

Lemma pydiv_zero (x y : Qc) : y = 0 → pydiv x y = ([], inl ZeroDivisionError).
Proof. intros Hy. unfold pydiv. by rewrite decide_True. Qed.

(** ** Linear arithmetic on canonical rationals, through [Q] *)

Lemma Qc_this_plus (x y : Qc) : (this (x + y) == this x + this y)%Q.
Proof. unfold Qcplus. simpl. apply Qred_correct. Qed.
Lemma Qc_this_mult (x y : Qc) : (this (x * y) == this x * this y)%Q.
Proof. unfold Qcmult. simpl. apply Qred_correct. Qed.
Lemma Qc_this_opp (x : Qc) : (this (- x) == - this x)%Q.
Proof. unfold Qcopp. simpl. apply Qred_correct. Qed.
Lemma Qc_this_minus (x y : Qc) : (this (x - y) == this x - this y)%Q.
Proof. unfold Qcminus. rewrite Qc_this_plus, Qc_this_opp. reflexivity. Qed.
Lemma Qc_this_eq (x y : Qc) : x = y ↔ (this x == this y)%Q.
Proof. split; [intros ->; reflexivity | apply Qc_is_canon]. Qed.

Ltac qc_lra :=
  intros;
  repeat match goal with
  | H : @eq Qc _ _ |- _ => apply Qc_this_eq in H
  | H : ¬ @eq Qc _ _ |- _ => rewrite Qc_this_eq in H
  | |- @eq Qc _ _ => apply Qc_this_eq
  | |- ¬ @eq Qc _ _ => rewrite Qc_this_eq
  end;
  unfold Qcle, Qclt in *;
  repeat match goal with
  | H : _ |- _ => first [ rewrite Qc_this_minus in H | rewrite Qc_this_plus in H
                        | rewrite Qc_this_opp in H | rewrite Qc_this_mult in H ]
  end;
  rewrite ?Qc_this_minus, ?Qc_this_plus, ?Qc_this_opp, ?Qc_this_mult;
  simpl this in *;
  repeat match goal with
  | H : _ |- _ => rewrite Qred_correct in H
  end;
  rewrite ?Qred_correct; lra.

Lemma Qcdiv_nonzero (x y : Qc) : x ≠ 0 → y ≠ 0 → x / y ≠ 0.
Proof.
  intros Hx Hy H. apply Hx.
  replace x with (x / y * y) by (field; done). rewrite H. ring.
Qed.

Lemma Qcpower_nonzero (x : Qc) (n : nat) : x ≠ 0 → x ^ n ≠ 0.
Proof.
  intros Hx. induction n as [|n IH]; simpl.
  - discriminate.
  - intros [H|H]%Qcmult_integral; contradiction.
Qed.

Lemma Qcpower_zero_succ (n : nat) : (0 : Qc) ^ S n = 0.
Proof. simpl. ring. Qed.

(** ** Float arithmetic on finite numbers *)

Lemma fpow_Fin (x : Qc) (n : nat) : fpow (Fin x) n = Fin (x ^ n).
Proof. induction n as [|n IH]; simpl; [done|]. by rewrite IH. Qed.

Lemma fpow_NaN (n : nat) : fpow NaN (S n) = NaN.
Proof. reflexivity. Qed.

(** ** The dictionary of three samples *)

Lemma elem_of_keys (d : gmap Qc Qc) (k : Qc) : k ∈ keys d ↔ is_Some (d !! k).
Proof.
  unfold keys. rewrite list_elem_of_fmap. split.
  - intros [[k' v] [-> Hin]]. exists v. by apply elem_of_map_to_list.
  - intros [v Hv]. exists (k, v). split; [done|]. by apply elem_of_map_to_list.
Qed.

Lemma elem_of_sorted_keys (d : gmap Qc Qc) (k : Qc) :
  k ∈ sorted_keys d ↔ is_Some (d !! k).
Proof. unfold sorted_keys. by rewrite merge_sort_Permutation, elem_of_keys. Qed.

Lemma length_sorted_keys (d : gmap Qc Qc) : length (sorted_keys d) = size d.
Proof.
  unfold sorted_keys, keys.
  by rewrite merge_sort_Permutation, length_fmap, length_map_to_list.
Qed.

Lemma NoDup_sorted_keys (d : gmap Qc Qc) : NoDup (sorted_keys d).
Proof.
  unfold sorted_keys, keys. rewrite merge_sort_Permutation.
  apply NoDup_fst_map_to_list.
Qed.

Lemma Sorted_sorted_keys (d : gmap Qc Qc) : Sorted Qcle (sorted_keys d).
Proof. apply (Sorted_merge_sort Qcle). Qed.

Lemma all_keys_nonnegative_spec (d : gmap Qc Qc) :
  all_keys_nonnegative d = true ↔ ∀ k, is_Some (d !! k) → 0 ≤ k.
Proof.
  unfold all_keys_nonnegative. rewrite forallb_forall. split.
  - intros H k Hk. apply elem_of_keys, list_elem_of_In, H in Hk.
    by apply bool_decide_eq_true_1 in Hk.
  - intros H k Hk. apply bool_decide_eq_true_2, H, elem_of_keys.
    by apply list_elem_of_In.
Qed.

Lemma forallb_false {A} (f : A → bool) (l : list A) :
  forallb f l = false ↔ ∃ x, x ∈ l ∧ f x = false.
Proof.
  induction l as [|a l IH]; simpl.
  - split; [done|]. intros [x [Hx _]]. by apply elem_of_nil in Hx.
  - rewrite andb_false_iff, IH. split.
    + intros [Ha|[x [Hx Hf]]]; [exists a|exists x]; split; try done.
      * apply list_elem_of_here.
      * by apply list_elem_of_further.
    + intros [x [Hx Hf]]. apply elem_of_cons in Hx as [->|Hx]; [by left|].
      right. by exists x.
Qed.

Lemma all_keys_nonnegative_false (d : gmap Qc Qc) :
  all_keys_nonnegative d = false ↔ ∃ k, is_Some (d !! k) ∧ k < 0.
Proof.
  unfold all_keys_nonnegative. rewrite forallb_false.
  split; intros [k [Hk Hlt]]; exists k.
  - split; [by apply elem_of_keys|].
    apply bool_decide_eq_false_1 in Hlt. by apply Qcnot_le_lt.
  - split; [by apply elem_of_keys|].
    apply bool_decide_eq_false_2. by apply Qclt_not_le.
Qed.

(** The keys of a mapping of three samples, listed in increasing order. *)
Lemma samples_lookup d lo mid hi e_lo e_mid e_hi :
  samples d lo mid hi e_lo e_mid e_hi →
  d !! lo = Some e_lo ∧ d !! mid = Some e_mid ∧ d !! hi = Some e_hi
  ∧ ∀ k, is_Some (d !! k) → k = lo ∨ k = mid ∨ k = hi.
Proof.
  intros (-> & Hlm & Hmh).
  assert (lo ≠ mid) by by apply Qclt_not_eq.
  assert (mid ≠ hi) by by apply Qclt_not_eq.
  assert (lo ≠ hi) by (apply Qclt_not_eq; by trans mid).
  repeat split.
  - by rewrite lookup_insert_eq.
  - by rewrite lookup_insert_ne, lookup_insert_eq.
  - by rewrite !lookup_insert_ne, lookup_singleton_eq.
  - intros k [v Hv].
    destruct (decide (k = lo)) as [|Hk1]; [by left|].
    destruct (decide (k = mid)) as [|Hk2]; [by right; left|].
    destruct (decide (k = hi)) as [|Hk3]; [by right; right|].
    by rewrite !lookup_insert_ne, lookup_singleton_ne in Hv.
Qed.

Lemma samples_size d lo mid hi e_lo e_mid e_hi :
  samples d lo mid hi e_lo e_mid e_hi → size d = 3%nat.
Proof.
  intros (-> & Hlm & Hmh).
  assert (lo ≠ mid) by by apply Qclt_not_eq.
  assert (mid ≠ hi) by by apply Qclt_not_eq.
  assert (lo ≠ hi) by (apply Qclt_not_eq; by trans mid).
  rewrite !map_size_insert_None, map_size_singleton; [done| |].
  - by rewrite lookup_singleton_ne.
  - by rewrite lookup_insert_ne, lookup_singleton_ne.
Qed.

Lemma samples_sorted_keys d lo mid hi e_lo e_mid e_hi :
  samples d lo mid hi e_lo e_mid e_hi → sorted_keys d = [lo; mid; hi].
Proof.
  intros Hs. pose proof Hs as (-> & Hlm & Hmh).
  assert (lo ≠ mid) by by apply Qclt_not_eq.
  assert (mid ≠ hi) by by apply Qclt_not_eq.
  assert (lo ≠ hi) by (apply Qclt_not_eq; by trans mid).
  apply (Sorted_unique Qcle).
  - apply Sorted_sorted_keys.
  - repeat constructor; by apply Qclt_le_weak.
  - unfold sorted_keys, keys. rewrite merge_sort_Permutation.
    rewrite !map_to_list_insert, map_to_list_singleton; [done| |].
    + by rewrite lookup_singleton_ne.
    + by rewrite lookup_insert_ne, lookup_singleton_ne.
Qed.

Lemma samples_getitem d lo mid hi e_lo e_mid e_hi :
  samples d lo mid hi e_lo e_mid e_hi →
  getitem d <$> [lo; mid; hi] = [e_lo; e_mid; e_hi].
Proof.
  intros (H1 & H2 & H3 & _)%samples_lookup. unfold getitem. simpl.
  by rewrite H1, H2, H3.
Qed.

(** A mapping of three samples has one reading as [samples]. *)
Lemma samples_unique d lo mid hi e_lo e_mid e_hi lo' mid' hi' e_lo' e_mid' e_hi' :
  samples d lo mid hi e_lo e_mid e_hi →
  samples d lo' mid' hi' e_lo' e_mid' e_hi' →
  lo = lo' ∧ mid = mid' ∧ hi = hi' ∧ e_lo = e_lo' ∧ e_mid = e_mid' ∧ e_hi = e_hi'.
Proof.
  intros Hs Hs'.
  pose proof (samples_sorted_keys _ _ _ _ _ _ _ Hs) as Hk.
  pose proof (samples_sorted_keys _ _ _ _ _ _ _ Hs') as Hk'.
  rewrite Hk in Hk'. injection Hk' as <- <- <-.
  apply samples_lookup in Hs as (H1 & H2 & H3 & _).
  apply samples_lookup in Hs' as (H1' & H2' & H3' & _).
  rewrite H1 in H1'. rewrite H2 in H2'. rewrite H3 in H3'.
  by simplify_eq.
Qed.

(** Every mapping of size three is a mapping of three samples. *)
Lemma samples_of_size_3 (d : gmap Qc Qc) :
  size d = 3%nat → ∃ lo mid hi e_lo e_mid e_hi, samples d lo mid hi e_lo e_mid e_hi.
Proof.
  intros Hsize.
  pose proof (length_sorted_keys d) as Hlen. rewrite Hsize in Hlen.
  pose proof (NoDup_sorted_keys d) as Hnd.
  pose proof (Sorted_sorted_keys d) as Hsort.
  pose proof (elem_of_sorted_keys d) as Hin.
  destruct (sorted_keys d) as [|lo [|mid [|hi [|? ?]]]]; try done.
  clear Hlen.
  apply NoDup_cons in Hnd as [Hlo Hnd]. apply NoDup_cons in Hnd as [Hmid _].
  apply Sorted_inv in Hsort as [Hsort Hlm]. apply Sorted_inv in Hsort as [_ Hmh].
  apply HdRel_inv in Hlm. apply HdRel_inv in Hmh.
  assert (lo ≠ mid) by (intros ->; apply Hlo; apply list_elem_of_here).
  assert (mid ≠ hi) by (intros ->; apply Hmid; apply list_elem_of_here).
  assert (lo < mid) by (by apply Qcle_lt_or_eq in Hlm as [|]).
  assert (mid < hi) by (by apply Qcle_lt_or_eq in Hmh as [|]).
  assert (lo ≠ hi) by (apply Qclt_not_eq; by trans mid).
  exists lo, mid, hi, (getitem d lo), (getitem d mid), (getitem d hi).
  split; [|done].
  apply map_eq. intros k.
  assert (∀ k', k' ∈ [lo; mid; hi] → d !! k' = Some (getitem d k')) as Hget.
  { intros k' [v Hv]%Hin. unfold getitem. by rewrite Hv. }
  destruct (decide (k = lo)) as [->|Hk1].
  { rewrite lookup_insert_eq. apply Hget, list_elem_of_here. }
  destruct (decide (k = mid)) as [->|Hk2].
  { rewrite lookup_insert_ne, lookup_insert_eq by done.
    apply Hget, list_elem_of_further, list_elem_of_here. }
  destruct (decide (k = hi)) as [->|Hk3].
  { rewrite !lookup_insert_ne, lookup_singleton_eq by done.
    apply Hget. do 2 apply list_elem_of_further. apply list_elem_of_here. }
  rewrite !lookup_insert_ne, lookup_singleton_ne by done.
  apply eq_None_not_Some. rewrite <- Hin, !elem_of_cons, elem_of_nil. tauto.
Qed.

Lemma triple_samples n0 e_m e_0 e_p :
  samples (triple n0 e_m e_0 e_p) (n0 - 1) n0 (n0 + 1) e_m e_0 e_p.
Proof. split; [done|]. split; qc_lra. Qed.

(** ** The outcomes of the constructor *)

Lemma init_wrong_count (d : gmap Qc Qc) :
  size d ≠ 3%nat → init d = ([], inl (ValueError RequiresThreePositive)).
Proof.
  intros H. unfold init. by rewrite (bool_decide_eq_false_2 _ H).
Qed.

Lemma init_negative_count (d : gmap Qc Qc) :
  (∃ k, is_Some (d !! k) ∧ k < 0) →
  init d = ([], inl (ValueError RequiresThreePositive)).
Proof.
  intros H%all_keys_nonnegative_false. unfold init. rewrite H.
  by rewrite orb_true_r.
Qed.

(** The checks that follow the first one, on a mapping of three samples
    without a negative count. *)
Lemma init_samples d lo mid hi e_lo e_mid e_hi :
  samples d lo mid hi e_lo e_mid e_hi → 0 ≤ lo →
  init d =
    (raise_if (bool_decide (mid < 1)) (ValueError (N0LessThanOne mid));;
     raise_if (negb (bool_decide ([lo; mid; hi] = [mid - 1; mid; mid + 1])))
              (ValueError NotUnitSpaced);;
     raise_if (negb (bool_decide (e_mid < e_lo) && bool_decide (e_hi ≤ e_mid)))
              (ValueError (NotMonotonic [e_lo; e_mid; e_hi]));;
     b1 ← pydiv (- (e_hi - 2 * e_mid + e_lo))
                ((mid + 1) * e_hi - 2 * mid * e_mid + (mid - 1) * e_lo);
     mret (mkTool [- ((1 + b1 * mid) * (e_hi - e_mid) + b1 * e_hi) * mid
                     + e_mid * (1 + b1 * mid);
                   (1 + b1 * mid) * (e_hi - e_mid) + b1 * e_hi;
                   b1] mid PInf)).
Proof.
  intros Hs Hlo.
  pose proof (samples_size _ _ _ _ _ _ _ Hs) as Hsize.
  pose proof (samples_sorted_keys _ _ _ _ _ _ _ Hs) as Hkeys.
  pose proof (samples_getitem _ _ _ _ _ _ _ Hs) as Hget.
  pose proof (samples_lookup _ _ _ _ _ _ _ Hs) as (_ & _ & _ & Hall).
  destruct Hs as (_ & Hlm & Hmh).
  unfold init. rewrite (bool_decide_eq_true_2 _ Hsize).
  assert (all_keys_nonnegative d = true) as ->.
  { apply all_keys_nonnegative_spec. intros k Hk.
    destruct (Hall k Hk) as [-> | [-> | ->]]; [done | | ].
    - apply Qclt_le_weak. by apply Qcle_lt_trans with lo.
    - apply Qclt_le_weak. apply Qcle_lt_trans with lo; [done|]. by trans mid. }
  change (negb true || negb true) with false. rewrite raise_if_false.
  rewrite Hkeys, Hget. reflexivity.
Qed.

(** The constructor on a triple that passes the validation: the closed form
    when the denominator of [b1] is not zero, [ZeroDivisionError] when it is. *)
Lemma init_triple n0 e_m e_0 e_p :
  1 ≤ n0 → e_0 < e_m → e_p ≤ e_0 →
  init (triple n0 e_m e_0 e_p) =
    if decide (b1_denominator n0 e_m e_0 e_p = 0)
    then ([], inl ZeroDivisionError)
    else ([], inr (mkTool (closed_form n0 e_m e_0 e_p) n0 PInf)).
Proof.
  intros Hn0 Hm Hp.
  rewrite (init_samples _ _ _ _ _ _ _ (triple_samples n0 e_m e_0 e_p))
    by (revert Hn0; qc_lra).
  rewrite (bool_decide_eq_false_2 _ (Qcle_not_lt _ _ Hn0)), raise_if_false.
  rewrite (bool_decide_eq_true_2 _ (eq_refl [n0 - 1; n0; n0 + 1])).
  change (negb true) with false. rewrite raise_if_false.
  rewrite (bool_decide_eq_true_2 _ Hm), (bool_decide_eq_true_2 _ Hp).
  change (negb (true && true)) with false. rewrite raise_if_false.
  fold (b1_denominator n0 e_m e_0 e_p).
  unfold pydiv. destruct (decide (b1_denominator n0 e_m e_0 e_p = 0)); [done|].
  by rewrite bind_ret.
Qed.

(** Every outcome of the constructor, by the check that decides it. *)
Lemma init_cases (d : gmap Qc Qc) :
  (init d = ([], inl (ValueError RequiresThreePositive))
   ∧ (violated ThreeSamples d ∨ violated CountsNonNegative d))
  ∨ ∃ lo mid hi e_lo e_mid e_hi,
      samples d lo mid hi e_lo e_mid e_hi ∧ 0 ≤ lo ∧
      ((mid < 1 ∧ init d = ([], inl (ValueError (N0LessThanOne mid))))
       ∨ (1 ≤ mid ∧ [lo; mid; hi] ≠ [mid - 1; mid; mid + 1]
          ∧ init d = ([], inl (ValueError NotUnitSpaced)))
       ∨ (1 ≤ mid ∧ d = triple mid e_lo e_mid e_hi
          ∧ ¬ (e_mid < e_lo ∧ e_hi ≤ e_mid)
          ∧ init d = ([], inl (ValueError (NotMonotonic [e_lo; e_mid; e_hi]))))
       ∨ (1 ≤ mid ∧ d = triple mid e_lo e_mid e_hi
          ∧ e_mid < e_lo ∧ e_hi ≤ e_mid
          ∧ init d =
              if decide (b1_denominator mid e_lo e_mid e_hi = 0)
              then ([], inl ZeroDivisionError)
              else ([], inr (mkTool (closed_form mid e_lo e_mid e_hi) mid PInf)))).
Proof.
  destruct (decide (size d = 3%nat)) as [Hsize|Hsize].
  2: { left. split; [by apply init_wrong_count | by left]. }
  destruct (samples_of_size_3 d Hsize) as (lo & mid & hi & e_lo & e_mid & e_hi & Hs).
  destruct (decide (lo < 0)) as [Hneg|Hlo%Qcnot_lt_le].
  { assert (∃ k, is_Some (d !! k) ∧ k < 0) as Hk.
    { exists lo. split; [|done].
      apply samples_lookup in Hs as (H1 & _). by rewrite H1. }
    left. split; [by apply init_negative_count | by right]. }
  right. exists lo, mid, hi, e_lo, e_mid, e_hi. split; [done|]. split; [done|].
  pose proof (init_samples _ _ _ _ _ _ _ Hs Hlo) as Hinit.
  destruct (decide (mid < 1)) as [Hmid|Hmid%Qcnot_lt_le].
  { left. split; [done|]. by rewrite (bool_decide_eq_true_2 _ Hmid) in Hinit. }
  right.
  rewrite (bool_decide_eq_false_2 _ (Qcle_not_lt _ _ Hmid)), raise_if_false in Hinit.
  destruct (decide ([lo; mid; hi] = [mid - 1; mid; mid + 1])) as [Heq|Hne].
  2: { left. split; [done|]. split; [done|].
       by rewrite (bool_decide_eq_false_2 _ Hne) in Hinit. }
  right. rewrite (bool_decide_eq_true_2 _ Heq) in Hinit.
  change (negb true) with false in Hinit. rewrite raise_if_false in Hinit.
  injection Heq as -> ->.
  assert (d = triple mid e_lo e_mid e_hi) as Hd by apply Hs.
  destruct (decide (e_mid < e_lo ∧ e_hi ≤ e_mid)) as [[Hm Hp]|Hmono].
  - right. repeat (split; [done|]). rewrite Hd. by apply init_triple.
  - left. repeat (split; [done|]). rewrite Hinit.
    assert (bool_decide (e_mid < e_lo) && bool_decide (e_hi ≤ e_mid) = false) as ->;
      [|done].
    apply andb_false_iff.
    destruct (decide (e_mid < e_lo)) as [Hm|Hm].
    + right. apply bool_decide_eq_false_2. tauto.
    + left. by apply bool_decide_eq_false_2.
Qed.

(** ** The outcomes of [energy] and [energy_derivative] *)

Lemma in_range_Fin (self : RationalGlobalTool) (q : Qc) :
  negb (fge (Fin q) (_n0 self - 1) && fle (Fin q) (_n0 self + 1))
  = negb (bool_decide (interpolated self q)).
Proof. unfold interpolated. simpl. by rewrite bool_decide_and. Qed.

Lemma flt_negative (n_elec : pyfloat) : flt n_elec 0 = true ↔ negative n_elec.
Proof.
  destruct n_elec; simpl; rewrite ?bool_decide_eq_true; naive_solver.
Qed.

Lemma flt_not_negative (n_elec : pyfloat) : nonnegative n_elec → flt n_elec 0 = false.
Proof.
  destruct n_elec; simpl; try done.
  intros H. apply bool_decide_eq_false_2. by apply Qcle_not_lt.
Qed.

Lemma energy_negative (self : RationalGlobalTool) (n_elec : pyfloat) :
  negative n_elec →
  energy self n_elec = ([], inl (ValueError (NegativeElectrons n_elec))).
Proof. intros H%flt_negative. unfold energy. by rewrite H. Qed.

Lemma energy_derivative_negative (self : RationalGlobalTool) n_elec order :
  negative n_elec →
  energy_derivative self n_elec order
  = ([], inl (ValueError (NegativeElectrons n_elec))).
Proof. intros H%flt_negative. unfold energy_derivative. by rewrite H. Qed.

Lemma energy_Fin (self : RationalGlobalTool) (q : Qc) :
  0 ≤ q →
  energy self (Fin q) =
    (if decide (interpolated self q) then []
     else [EnergyOutside (Fin q) (_n0 self - 1) (_n0 self + 1)],
     if decide (1 + param self 2 * q = 0) then inl ZeroDivisionError
     else inr (Fin ((param self 0 + param self 1 * q) / (1 + param self 2 * q)))).
Proof.
  intros Hq. unfold energy.
  rewrite (flt_not_negative (Fin q)), raise_if_false by done.
  rewrite in_range_Fin.
  cbn [isinf fadd fmul fdiv]. unfold pydiv.
  destruct (decide (interpolated self q)) as [Hin|Hout].
  - rewrite (bool_decide_eq_true_2 _ Hin). cbn [negb]. rewrite warn_if_false.
    destruct (decide (1 + param self 2 * q = 0)); [done|]. by rewrite bind_ret.
  - rewrite (bool_decide_eq_false_2 _ Hout). cbn [negb]. rewrite warn_if_true.
    destruct (decide (1 + param self 2 * q = 0)); [done|]. by rewrite bind_ret.
Qed.

Lemma energy_PInf (self : RationalGlobalTool) :
  energy self PInf =
    ([EnergyOutside PInf (_n0 self - 1) (_n0 self + 1)],
     if decide (param self 2 = 0) then inl ZeroDivisionError
     else inr (Fin (param self 1 / param self 2))).
Proof.
  unfold energy. cbn [flt fge fle isinf andb negb].
  rewrite raise_if_false, warn_if_true. unfold pydiv.
  destruct (decide (param self 2 = 0)); [done|]. by rewrite bind_ret.
Qed.

(** The order check passes on the [int] instances whose value is positive. *)
Lemma order_check (order : pyobj) :
  isinstance_int order && bool_decide (0 < int_value order)%Z = true
  ↔ positive_integer order ∨ order = PyBool true.
Proof.
  unfold positive_integer. split.
  - destruct order as [z|[]| | | |]; simpl; try done.
    + intros H%bool_decide_eq_true_1. left. by exists z.
    + by right.
  - intros [(z & Hz & ->) | ->]; simpl; [|done]. by apply bool_decide_eq_true_2.
Qed.

Lemma energy_derivative_bad_order (self : RationalGlobalTool) n_elec order :
  ¬ negative n_elec → ¬ positive_integer order → order ≠ PyBool true →
  (energy_derivative self n_elec order).2 = inl (ValueError BadOrder).
Proof.
  intros Hn Hpos Htrue. unfold energy_derivative.
  assert (flt n_elec 0 = false) as ->.
  { apply not_true_iff_false. by rewrite flt_negative. }
  rewrite raise_if_false.
  assert (isinstance_int order && bool_decide (0 < int_value order)%Z = false) as ->.
  { apply not_true_iff_false. rewrite order_check. tauto. }
  cbn [negb].
  by destruct (negb _); [rewrite warn_if_true | rewrite warn_if_false].
Qed.

Lemma energy_derivative_Fin (self : RationalGlobalTool) (q : Qc) order :
  0 ≤ q → positive_integer order ∨ order = PyBool true →
  energy_derivative self (Fin q) order =
    (if decide (interpolated self q) then []
     else [DerivativeOutside (Fin q) (_n0 self - 1) (_n0 self + 1)],
     if decide (1 + param self 2 * q = 0) then inl ZeroDivisionError
     else inr (Fin (derivative_formula (param self 0) (param self 1) (param self 2)
                      q (Z.to_nat (int_value order))))).
Proof.
  intros Hq Horder. unfold energy_derivative.
  rewrite (flt_not_negative (Fin q)), raise_if_false by done.
  rewrite in_range_Fin.
  assert (0 < int_value order)%Z as Hpos.
  { destruct Horder as [(z & Hz & ->) | ->]; simpl; lia. }
  rewrite (proj2 (order_check order) Horder). cbn [negb].
  cbn [isinf fadd fmul]. rewrite !fpow_Fin. cbn [fmul fdiv]. unfold pydiv.
  replace (Z.to_nat (int_value order - 1)) with (Z.to_nat (int_value order) - 1)%nat
    by lia.
  replace (Z.to_nat (int_value order + 1)) with (Z.to_nat (int_value order) + 1)%nat
    by lia.
  unfold derivative_formula.
  assert ((1 + param self 2 * q) ^ (Z.to_nat (int_value order) + 1) = 0
          ↔ 1 + param self 2 * q = 0) as Hpow.
  { split.
    - intros H. destruct (decide (1 + param self 2 * q = 0)); [done|].
      by apply Qcpower_nonzero with (n := (Z.to_nat (int_value order) + 1)%nat) in n.
    - intros ->. rewrite Nat.add_1_r. apply Qcpower_zero_succ. }
  destruct (decide (interpolated self q)) as [Hin|Hout].
  - rewrite (bool_decide_eq_true_2 _ Hin). cbn [negb].
    rewrite warn_if_false, raise_if_false.
    destruct (decide (1 + param self 2 * q = 0)) as [Hz|Hnz].
    + by rewrite decide_True by by apply Hpow.
    + rewrite decide_False by (intros H%Hpow; contradiction).
      by rewrite bind_ret, Qcmult_assoc.
  - rewrite (bool_decide_eq_false_2 _ Hout). cbn [negb].
    rewrite warn_if_true, raise_if_false.
    destruct (decide (1 + param self 2 * q = 0)) as [Hz|Hnz].
    + by rewrite decide_True by by apply Hpow.
    + rewrite decide_False by (intros H%Hpow; contradiction).
      by rewrite bind_ret, Qcmult_assoc.
Qed.

Lemma energy_derivative_PInf (self : RationalGlobalTool) order :
  positive_integer order ∨ order = PyBool true →
  energy_derivative self PInf order =
    ([DerivativeOutside PInf (_n0 self - 1) (_n0 self + 1)], inr (Fin 0)).
Proof.
  intros Horder. unfold energy_derivative.
  cbn [flt fge fle isinf andb negb].
  rewrite raise_if_false, warn_if_true.
  by rewrite (proj2 (order_check order) Horder).
Qed.

(** ** The fit *)

Lemma param_0 (a b c n0 : Qc) n_max : param (mkTool [a; b; c] n0 n_max) 0 = a.
Proof. reflexivity. Qed.
Lemma param_1 (a b c n0 : Qc) n_max : param (mkTool [a; b; c] n0 n_max) 1 = b.
Proof. reflexivity. Qed.
Lemma param_2 (a b c n0 : Qc) n_max : param (mkTool [a; b; c] n0 n_max) 2 = c.
Proof. reflexivity. Qed.

Lemma Qcdiv_eq (x y z : Qc) : y ≠ 0 → x = z * y → x / y = z.
Proof. intros Hy ->. by field. Qed.

Section Fit.

Variables n0 e_m e_0 e_p : Qc.
Hypothesis denominator_nonzero : b1_denominator n0 e_m e_0 e_p ≠ 0.

Let b1 : Qc := - (e_p - 2 * e_0 + e_m) / b1_denominator n0 e_m e_0 e_p.

(** The denominator [1 + b1 * N] of the fitted model at the three counts. *)
Lemma denominator_at_n0 :
  1 + b1 * n0 = (e_p - e_m) / b1_denominator n0 e_m e_0 e_p.
Proof. unfold b1. unfold b1_denominator in *. by field. Qed.

Lemma denominator_at_n0_minus_1 :
  1 + b1 * (n0 - 1) = 2 * (e_p - e_0) / b1_denominator n0 e_m e_0 e_p.
Proof. unfold b1. unfold b1_denominator in *. by field. Qed.

Lemma denominator_at_n0_plus_1 :
  1 + b1 * (n0 + 1) = 2 * (e_0 - e_m) / b1_denominator n0 e_m e_0 e_p.
Proof. unfold b1. unfold b1_denominator in *. by field. Qed.

(** The numerator [a0 + a1 * N] is the energy times the denominator. *)
Lemma numerator_at_n0 :
  let a1 := (1 + b1 * n0) * (e_p - e_0) + b1 * e_p in
  let a0 := - a1 * n0 + e_0 * (1 + b1 * n0) in
  a0 + a1 * n0 = e_0 * (1 + b1 * n0).
Proof. intros a1 a0. unfold a0, a1. ring. Qed.

Lemma numerator_at_n0_plus_1 :
  let a1 := (1 + b1 * n0) * (e_p - e_0) + b1 * e_p in
  let a0 := - a1 * n0 + e_0 * (1 + b1 * n0) in
  a0 + a1 * (n0 + 1) = e_p * (1 + b1 * (n0 + 1)).
Proof. intros a1 a0. unfold a0, a1. ring. Qed.

Lemma numerator_at_n0_minus_1 :
  let a1 := (1 + b1 * n0) * (e_p - e_0) + b1 * e_p in
  let a0 := - a1 * n0 + e_0 * (1 + b1 * n0) in
  a0 + a1 * (n0 - 1) = e_m * (1 + b1 * (n0 - 1)).
Proof.
  intros a1 a0. unfold a0, a1, b1. unfold b1_denominator in *. by field.
Qed.

End Fit.

(** The model the constructor returns when the denominator of [b1] is not
    zero. *)
Lemma init_closed_form n0 e_m e_0 e_p :
  1 ≤ n0 → e_0 < e_m → e_p ≤ e_0 → b1_denominator n0 e_m e_0 e_p ≠ 0 →
  init (triple n0 e_m e_0 e_p)
  = ([], inr (mkTool (closed_form n0 e_m e_0 e_p) n0 PInf)).
Proof.
  intros Hn0 Hm Hp HD. rewrite init_triple by done. by rewrite decide_False.
Qed.

Lemma init_zero_denominator n0 e_m e_0 e_p :
  1 ≤ n0 → e_0 < e_m → e_p ≤ e_0 → b1_denominator n0 e_m e_0 e_p = 0 →
  init (triple n0 e_m e_0 e_p) = ([], inl ZeroDivisionError).
Proof.
  intros Hn0 Hm Hp HD. rewrite init_triple by done. by rewrite decide_True.
Qed.

(** The fitted model at one of the three counts: inside the interpolation
    interval, so no warning, and the value is the quotient. *)
Lemma energy_closed_form n0 e_m e_0 e_p (q e : Qc) :
  let m := mkTool (closed_form n0 e_m e_0 e_p) n0 PInf in
  0 ≤ q → n0 - 1 ≤ q → q ≤ n0 + 1 →
  1 + param m 2 * q ≠ 0 →
  param m 0 + param m 1 * q = e * (1 + param m 2 * q) →
  energy m (Fin q) = ([], inr (Fin e)).
Proof.
  intros m Hq Hlo Hhi Hden Hnum. rewrite energy_Fin by done.
  rewrite decide_True by done. rewrite decide_False by done.
  by rewrite (Qcdiv_eq _ _ e).
Qed.

(** Claim C1, as amended: for every triple of energies at [n0 - 1], [n0],
    [n0 + 1] with [n0 >= 1] and E(n0-1) > E(n0) > E(n0+1) for which the
    denominator (n0+1) E+ - 2 n0 E0 + (n0-1) E- of [b1] is not zero, the
    constructor returns a model, without a warning, and [energy] of that model
    returns the three energies at the three counts, in exact arithmetic. *)
Theorem fit_reproduces_samples n0 e_m e_0 e_p :
  1 ≤ n0 → e_0 < e_m → e_p < e_0 →
  b1_denominator n0 e_m e_0 e_p ≠ 0 →
  reproduces n0 e_m e_0 e_p.
Proof.
  intros Hn0 Hm Hp HD.
  exists (mkTool (closed_form n0 e_m e_0 e_p) n0 PInf).
  split; [apply init_closed_form; auto using Qclt_le_weak|].
  assert (e_p - e_m ≠ 0) as H0 by (revert Hm Hp; qc_lra).
  assert (2 * (e_p - e_0) ≠ 0) as Hminus by (revert Hp; qc_lra).
  assert (2 * (e_0 - e_m) ≠ 0) as Hplus by (revert Hm; qc_lra).
  repeat split; apply energy_closed_form;
    unfold closed_form; rewrite ?param_0, ?param_1, ?param_2;
    try (revert Hn0; qc_lra).
  - rewrite denominator_at_n0_minus_1 by done. by apply Qcdiv_nonzero.
  - by apply numerator_at_n0_minus_1.
  - rewrite denominator_at_n0 by done. by apply Qcdiv_nonzero.
  - rewrite denominator_at_n0_plus_1 by done. by apply Qcdiv_nonzero.
Qed.

Lemma fit_reproduces_samples_witness :
  reproduces (qz 2) (qz (-1)) (qfrac (-13) 8) (qfrac (-61) 31).
Proof. apply fit_reproduces_samples; compute_done. Defined.

(** Claim C1, as stated, fails: the energies 4, 1, 0 at the counts 1, 2, 3
    pass the validation (n0 = 2 >= 1, 4 > 1 >= 0), and the constructor raises
    [ZeroDivisionError], so no model reproduces them. *)
Lemma fit_reproduces_samples_counterexample :
  1 ≤ qz 2 ∧ qz 1 < qz 4 ∧ qz 0 ≤ qz 1
  ∧ init (triple (qz 2) (qz 4) (qz 1) (qz 0)) = ([], inl ZeroDivisionError)
  ∧ ¬ reproduces (qz 2) (qz 4) (qz 1) (qz 0).
Proof.
  assert (init (triple (qz 2) (qz 4) (qz 1) (qz 0)) = ([], inl ZeroDivisionError))
    as Hinit by compute_done.
  repeat split; try compute_done.
  intros (m & Hm & _). rewrite Hinit in Hm. discriminate.
Qed.

(** With E(n0) = E(n0+1), which the validation lets through, the fitted
    denominator vanishes at [n0 - 1]: [energy] raises there. *)
Lemma energy_raises_when_last_two_equal n0 e_m e_0 :
  1 ≤ n0 → e_0 < e_m → b1_denominator n0 e_m e_0 e_0 ≠ 0 →
  ∃ m, init (triple n0 e_m e_0 e_0) = ([], inr m)
       ∧ energy m (Fin (n0 - 1)) = ([], inl ZeroDivisionError).
Proof.
  intros Hn0 Hm HD.
  exists (mkTool (closed_form n0 e_m e_0 e_0) n0 PInf).
  split; [by apply init_closed_form|].
  rewrite energy_Fin by (revert Hn0; qc_lra).
  rewrite decide_True by (split; qc_lra).
  rewrite decide_True; [done|].
  unfold closed_form. rewrite param_2, denominator_at_n0_minus_1 by done.
  by field.
Qed.

(** Claim C2: for every triple that passes the validation, the parameters
    [a0, a1, b1] stored in the model the constructor returns are the
    closed-form solution by substitution:
    b1 = -(E+ - 2 E0 + E-) / ((n0+1) E+ - 2 n0 E0 + (n0-1) E-),
    a1 = (1 + b1 n0) (E+ - E0) + b1 E+, a0 = -a1 n0 + E0 (1 + b1 n0);
    and the denominator of [b1] is then not zero. *)
Theorem params_closed_form n0 e_m e_0 e_p (m : RationalGlobalTool) :
  1 ≤ n0 → e_0 < e_m → e_p ≤ e_0 →
  returns (init (triple n0 e_m e_0 e_p)) m →
  ∃ a0 a1 b1,
    params m = [a0; a1; b1]
    ∧ (n0 + 1) * e_p - 2 * n0 * e_0 + (n0 - 1) * e_m ≠ 0
    ∧ b1 = - (e_p - 2 * e_0 + e_m)
           / ((n0 + 1) * e_p - 2 * n0 * e_0 + (n0 - 1) * e_m)
    ∧ a1 = (1 + b1 * n0) * (e_p - e_0) + b1 * e_p
    ∧ a0 = - a1 * n0 + e_0 * (1 + b1 * n0).
Proof.
  intros Hn0 Hm Hp. unfold returns. rewrite init_triple by done.
  destruct (decide (b1_denominator n0 e_m e_0 e_p = 0)) as [|HD]; [done|].
  intros [= <-]. simpl. unfold b1_denominator in HD. eauto 10.
Qed.

Lemma params_closed_form_witness :
  ∃ a0 a1 b1,
    params m_scenario = [a0; a1; b1]
    ∧ (qz 2 + 1) * qfrac (-61) 31 - 2 * qz 2 * qfrac (-13) 8
      + (qz 2 - 1) * qz (-1) ≠ 0
    ∧ b1 = - (qfrac (-61) 31 - 2 * qfrac (-13) 8 + qz (-1))
           / ((qz 2 + 1) * qfrac (-61) 31 - 2 * qz 2 * qfrac (-13) 8
              + (qz 2 - 1) * qz (-1))
    ∧ a1 = (1 + b1 * qz 2) * (qfrac (-61) 31 - qfrac (-13) 8) + b1 * qfrac (-61) 31
    ∧ a0 = - a1 * qz 2 + qfrac (-13) 8 * (1 + b1 * qz 2).
Proof.
  apply (params_closed_form (qz 2) (qz (-1)) (qfrac (-13) 8) (qfrac (-61) 31));
    compute_done.
Defined.

(** The scenario of the tests: the parameters are a0 = 0.5, a1 = -2.2,
    b1 = 0.7; [energy(0)] is 0.5, with a warning; [energy(n_max)] is
    -22/7 = -3.142857...; the chemical potential [energy_derivative(2)] is
    -85/192 = -0.442708.... *)
Example init_scenario : init d_scenario = ([], inr m_scenario).
Proof. compute_done. Qed.

Example energy_scenario_0 :
  energy m_scenario (Fin (qz 0))
  = ([EnergyOutside (Fin (qz 0)) (qz 1) (qz 3)], inr (Fin (qfrac 1 2))).
Proof. compute_done. Qed.

Example energy_scenario_n_max :
  returns (energy m_scenario (_n_max m_scenario)) (Fin (qfrac (-22) 7)).
Proof. compute_done. Qed.

(** The inputs that the tests expect the constructor to reject. *)
Example init_rejects_increasing_energies :
  init {[ qz 5 := qz 15; qz 6 := qfrac 33 2; qz 4 := qfrac 181 10 ]}
  = ([], inl (ValueError (NotMonotonic [qfrac 181 10; qz 15; qfrac 33 2]))).
Proof. compute_done. Qed.

Example init_rejects_equal_energies :
  init {[ qz 8 := qz (-15); qz 9 := qz (-15); qz 7 := qz (-16) ]}
  = ([], inl (ValueError (NotMonotonic [qz (-16); qz (-15); qz (-15)]))).
Proof. compute_done. Qed.

Example init_rejects_negative_count :
  init {[ qfrac 49 50 := qz (-15); qfrac 99 50 := qfrac (-72) 5;
          qfrac (-1) 50 := qz (-14) ]}
  = ([], inl (ValueError RequiresThreePositive)).
Proof. compute_done. Qed.

Example init_rejects_small_n0 :
  init {[ qfrac 4 5 := qz (-15); qz 0 := qfrac (-149) 10; qfrac 3 2 := qz (-14) ]}
  = ([], inl (ValueError (N0LessThanOne (qfrac 4 5)))).
Proof. compute_done. Qed.

Example init_rejects_half_spacing :
  init {[ qz 5 := qz (-15); qfrac 9 2 := qfrac (-149) 10; qfrac 11 2 := qz (-14) ]}
  = ([], inl (ValueError NotUnitSpaced)).
Proof. compute_done. Qed.

Example energy_derivative_scenario_default :
  energy_derivative_default m_scenario (Fin (qz 2)) = ([], inr (Fin (qfrac (-85) 192))).
Proof. compute_done. Qed.

(** ** The validation *)

Lemma valid_not_violated d lo mid hi e_lo e_mid e_hi (c : condition) :
  samples d lo mid hi e_lo e_mid e_hi → 0 ≤ lo → 1 ≤ mid →
  d = triple mid e_lo e_mid e_hi → e_mid < e_lo → e_hi ≤ e_mid →
  ¬ violated c d.
Proof.
  intros Hs Hlo Hmid Hd Hm Hp Hv. destruct c; simpl in Hv.
  - by apply Hv, (samples_size _ _ _ _ _ _ _ Hs).
  - destruct Hv as (k & Hk & Hneg).
    pose proof (samples_lookup _ _ _ _ _ _ _ Hs) as (_ & _ & _ & Hall).
    destruct Hs as (_ & Hlm & Hmh).
    destruct (Hall k Hk) as [-> | [-> | ->]]; revert Hlo Hlm Hmh Hneg; qc_lra.
  - apply Hv. by exists mid, e_lo, e_mid, e_hi.
  - destruct Hv as (lo' & n0' & hi' & a & b & c & Hs' & Hlt).
    destruct (samples_unique _ _ _ _ _ _ _ _ _ _ _ _ _ Hs Hs') as (_ & <- & _).
    by apply (Qcle_not_lt _ _ Hmid).
  - destruct Hv as (lo' & n0' & hi' & a & b & c & Hs' & Hnot).
    destruct (samples_unique _ _ _ _ _ _ _ _ _ _ _ _ _ Hs Hs')
      as (_ & _ & _ & <- & <- & <-).
    by apply Hnot.
Qed.

(** Claim C3, as amended: whenever the input violates one of the five
    conditions (three samples, no negative count, unit spacing around the
    middle count n0, n0 >= 1, E(n0-1) > E(n0) >= E(n0+1)) the constructor
    raises a [ValueError] and returns no model; and the error raised tells
    which check failed among four: a wrong number of samples and a negative
    count share one error, each of the other three conditions has its own. *)
Theorem validation_rejects (d : gmap Qc Qc) :
  (∀ c, violated c d → ∃ e, init d = ([], inl (ValueError e)))
  ∧ (∀ e, raises (init d) (ValueError e) → explains e d).
Proof.
  destruct (init_cases d) as
    [[Hinit Hv] | (lo & mid & hi & e_lo & e_mid & e_hi & Hs & Hlo &
       [[Hmid Hinit] | [(Hmid & Hne & Hinit) | [(Hmid & Hd & Hmono & Hinit)
         | (Hmid & Hd & Hm & Hp & Hinit)]]])];
    rewrite Hinit.
  - split; [by eauto|]. by intros e [= <-].
  - split; [by eauto|]. intros e [= <-]. simpl. by eauto 10.
  - split; [by eauto|]. intros e [= <-]. simpl.
    intros (n0 & a & b & c & Hd). apply Hne.
    destruct (samples_unique _ _ _ _ _ _ _ _ _ _ _ _ _ Hs
                (eq_rect_r (λ d, samples d _ _ _ _ _ _) (triple_samples n0 a b c) Hd))
      as (-> & -> & -> & _).
    done.
  - split; [by eauto|]. intros e [= <-]. simpl. by eauto 12.
  - split.
    + intros c Hv. by destruct (valid_not_violated _ _ _ _ _ _ _ c Hs).
    + intros e. unfold raises. by destruct (decide _).
Qed.

Lemma validation_rejects_witness :
  (∃ e, init d_four = ([], inl (ValueError e)))
  ∧ explains RequiresThreePositive d_around_zero.
Proof.
  split.
  - apply (proj1 (validation_rejects d_four) ThreeSamples). compute_done.
  - apply (proj2 (validation_rejects d_around_zero)). compute_done.
Defined.

(** Claim C3, as stated, fails in its last part: four samples at 1, 2, 3, 4
    and three samples at -1, 0, 1 raise the same error, and no condition of
    the five is violated by both (the first violates the number of samples and
    the spacing, the second the sign of the counts and n0 >= 1); so no reading
    of the errors identifies the condition that failed. *)
Lemma validation_identifies_counterexample :
  init d_four = ([], inl (ValueError RequiresThreePositive))
  ∧ init d_around_zero = ([], inl (ValueError RequiresThreePositive))
  ∧ ¬ ∃ which, identifies which.
Proof.
  assert (init d_four = ([], inl (ValueError RequiresThreePositive))) as H4
    by compute_done.
  assert (init d_around_zero = ([], inl (ValueError RequiresThreePositive))) as H0
    by compute_done.
  split; [done|]. split; [done|].
  intros [which Hwhich].
  pose proof (Hwhich d_four RequiresThreePositive) as Hfour.
  pose proof (Hwhich d_around_zero RequiresThreePositive) as Hzero.
  unfold raises in Hfour, Hzero. rewrite H4 in Hfour. rewrite H0 in Hzero.
  specialize (Hfour eq_refl). specialize (Hzero eq_refl).
  assert (size d_four = 4%nat) as Hsize by compute_done.
  destruct (which RequiresThreePositive); simpl in Hfour, Hzero.
  - apply Hzero. compute_done.
  - apply all_keys_nonnegative_false in Hfour.
    assert (all_keys_nonnegative d_four = true) as Hall by compute_done.
    congruence.
  - apply Hzero. by exists (qz 0), (qz 3), (qz 2), (qz 1).
  - destruct Hfour as (lo & n0 & hi & a & b & c & Hs%samples_size & _). congruence.
  - destruct Hfour as (lo & n0 & hi & a & b & c & Hs%samples_size & _). congruence.
Qed.

(** ** Evaluation of the model *)

Lemma factorial_1 : factorial 1 = 1.
Proof. by apply Qc_is_canon. Qed.

Lemma derivative_formula_1 (a0 a1 b1 n : Qc) :
  derivative_formula a0 a1 b1 n 1 = (a1 - a0 * b1) / (1 + b1 * n) ^ 2.
Proof.
  unfold derivative_formula. rewrite factorial_1. simpl.
  by rewrite Qcmult_1_l, Qcmult_1_r.
Qed.

Lemma factorial_succ (n : nat) :
  factorial (S n) = qz (Z.of_nat (S n)) * factorial n.
Proof.
  apply Qc_this_eq. rewrite Qc_this_mult. unfold factorial, qz, Qc_of_Z.
  cbn [this]. rewrite <- inject_Z_mult, <- Nat2Z.inj_mul. reflexivity.
Qed.

(** The first-order formula is the derivative of the rational function: the
    difference quotient of E between N and N + h is the formula with one factor
    of the denominator taken at N + h. *)
Lemma difference_quotient (a0 a1 b1 n h : Qc) :
  1 + b1 * n ≠ 0 → 1 + b1 * (n + h) ≠ 0 →
  (a0 + a1 * (n + h)) / (1 + b1 * (n + h)) - (a0 + a1 * n) / (1 + b1 * n)
  = h * ((a1 - a0 * b1) / ((1 + b1 * n) * (1 + b1 * (n + h)))).
Proof. intros H1 H2. by field. Qed.

(** Each further order is the derivative of the one before: the formula of
    order n + 1 is the formula of order n times -(n + 1) b1 / (1 + b1 N). *)
Lemma derivative_formula_succ (a0 a1 b1 n : Qc) (order : nat) :
  1 + b1 * n ≠ 0 →
  derivative_formula a0 a1 b1 n (S (S order))
  = derivative_formula a0 a1 b1 n (S order)
    * (- (qz (Z.of_nat (S (S order))) * b1) / (1 + b1 * n)).
Proof.
  intros Hden. unfold derivative_formula.
  replace (S (S order) - 1)%nat with (S order) by lia.
  replace (S order - 1)%nat with order by lia.
  replace (S (S order) + 1)%nat with (S (S order + 1)) by lia.
  rewrite (factorial_succ (S order)).
  pose proof (Qcpower_nonzero _ (S order + 1) Hden) as Hpow.
  change ((- b1) ^ S order) with (- b1 * (- b1) ^ order).
  change ((1 + b1 * n) ^ S (S order + 1))
    with ((1 + b1 * n) * (1 + b1 * n) ^ (S order + 1)).
  by field.
Qed.

(** Claim C4, as amended, in exact arithmetic (no rounding and no overflow;
    the [OverflowError] of Python floats at orders from 171 on, or for a power
    out of the float range, is outside the statement): for every model, every
    finite [n_elec >= 0] with [1 + b1 * n_elec <> 0] and every integer order
    n >= 1, [energy_derivative(n_elec, n)] returns
    (-b1)^(n-1) (a1 - a0 b1) n! / (1 + b1 n_elec)^(n+1); where
    [1 + b1 * n_elec = 0] it raises [ZeroDivisionError]. *)
Theorem energy_derivative_closed_form (m : RationalGlobalTool) (q : Qc) (z : Z) :
  0 ≤ q → (0 < z)%Z →
  (1 + param m 2 * q ≠ 0 →
   returns (energy_derivative m (Fin q) (PyInt z))
     (Fin ((- param m 2) ^ (Z.to_nat z - 1)
           * (param m 1 - param m 0 * param m 2) * factorial (Z.to_nat z)
           / (1 + param m 2 * q) ^ (Z.to_nat z + 1))))
  ∧ (1 + param m 2 * q = 0 →
     raises (energy_derivative m (Fin q) (PyInt z)) ZeroDivisionError).
Proof.
  intros Hq Hz. unfold returns, raises.
  rewrite energy_derivative_Fin by (try done; left; by exists z).
  split; intros H; simpl.
  - by rewrite decide_False.
  - by rewrite decide_True.
Qed.

Lemma energy_derivative_closed_form_witness :
  returns (energy_derivative m_scenario (Fin (qfrac 3 2)) (PyInt 2))
    (Fin ((- param m_scenario 2) ^ (Z.to_nat 2 - 1)
          * (param m_scenario 1 - param m_scenario 0 * param m_scenario 2)
          * factorial (Z.to_nat 2)
          / (1 + param m_scenario 2 * qfrac 3 2) ^ (Z.to_nat 2 + 1))).
Proof.
  apply (energy_derivative_closed_form m_scenario (qfrac 3 2) 2); compute_done.
Defined.

(** Claim C4, as stated, fails: the model fitted to the energies 0, -1, -4 at
    1, 2, 3 has b1 = -1/4, and its first derivative at N = 4 raises
    [ZeroDivisionError] instead of returning the value of the formula. *)
Lemma energy_derivative_closed_form_counterexample :
  init d_pole = ([], inr m_pole)
  ∧ 0 ≤ qz 4
  ∧ raises (energy_derivative m_pole (Fin (qz 4)) (PyInt 1)) ZeroDivisionError
  ∧ ¬ returns (energy_derivative m_pole (Fin (qz 4)) (PyInt 1))
        (Fin (derivative_formula (param m_pole 0) (param m_pole 1) (param m_pole 2)
                (qz 4) 1)).
Proof. repeat split; compute_done. Qed.

(** Claim C5, as amended: for every model and every [n_elec >= 0] at which the
    evaluation does not divide by zero ([1 + b1 * n_elec <> 0] at a finite
    count, [b1 <> 0] at [+inf]), [energy(n_elec)] returns a value; it logs no
    warning inside the interpolation interval [n0 - 1, n0 + 1] and exactly one
    outside, and the warning does not change the outcome. *)
Theorem energy_returns_where_regular (m : RationalGlobalTool) (n_elec : pyfloat) :
  nonnegative n_elec → regular m n_elec →
  (∃ v, returns (energy m n_elec) v)
  ∧ (inside m n_elec → warnings (energy m n_elec) = [])
  ∧ (¬ inside m n_elec →
     warnings (energy m n_elec)
     = [EnergyOutside n_elec (_n0 m - 1) (_n0 m + 1)]).
Proof.
  unfold returns, warnings.
  destruct n_elec as [q| | |]; simpl; try done.
  - intros Hq Hreg. rewrite energy_Fin by done. simpl.
    rewrite (decide_False _ _ Hreg).
    split; [by eauto|]. split; intros H.
    + by rewrite decide_True.
    + by rewrite decide_False.
  - intros _ Hreg. rewrite energy_PInf. simpl. rewrite (decide_False _ _ Hreg).
    split; [by eauto|]. by split.
Qed.

Lemma energy_returns_where_regular_witness :
  (∃ v, returns (energy m_pole (Fin (qz 5))) v)
  ∧ (inside m_pole (Fin (qz 5)) → warnings (energy m_pole (Fin (qz 5))) = [])
  ∧ (¬ inside m_pole (Fin (qz 5)) →
     warnings (energy m_pole (Fin (qz 5)))
     = [EnergyOutside (Fin (qz 5)) (_n0 m_pole - 1) (_n0 m_pole + 1)]).
Proof. apply (energy_returns_where_regular m_pole (Fin (qz 5))); compute_done. Defined.

(** Claim C5, as stated, fails: the model fitted to the energies 0, -1, -4 at
    1, 2, 3 is E(N) = (2 - 2 N) / (4 - N); [energy(4)] logs the warning and
    then raises [ZeroDivisionError]. *)
Lemma energy_returns_counterexample :
  init d_pole = ([], inr m_pole)
  ∧ nonnegative (Fin (qz 4))
  ∧ energy m_pole (Fin (qz 4))
    = ([EnergyOutside (Fin (qz 4)) (qz 1) (qz 3)], inl ZeroDivisionError)
  ∧ ¬ ∃ v, returns (energy m_pole (Fin (qz 4))) v.
Proof.
  assert (energy m_pole (Fin (qz 4))
          = ([EnergyOutside (Fin (qz 4)) (qz 1) (qz 3)], inl ZeroDivisionError))
    as H by compute_done.
  repeat split; try compute_done.
  intros [v Hv]. unfold returns in Hv. rewrite H in Hv. discriminate.
Qed.

(** Direct substitution of [+inf] in the rational function is [nan] for every
    model: numerator and denominator are infinite or [nan]. *)
Lemma direct_substitution_PInf (m : RationalGlobalTool) :
  direct_substitution m PInf = ([], inr NaN).
Proof.
  unfold direct_substitution. simpl. unfold signed_inf.
  by repeat case_decide.
Qed.

(** Claim C6, as amended: for every model with [b1 <> 0], [energy(+inf)]
    returns [a1 / b1], where direct substitution would give [nan]; with
    [b1 = 0] it raises [ZeroDivisionError]; and [energy_derivative(+inf, n)]
    returns 0 for every integer order n >= 1. *)
Theorem evaluation_at_infinity (m : RationalGlobalTool) :
  (param m 2 ≠ 0 →
   returns (energy m PInf) (Fin (param m 1 / param m 2))
   ∧ returns (direct_substitution m PInf) NaN)
  ∧ (param m 2 = 0 → raises (energy m PInf) ZeroDivisionError)
  ∧ (∀ z, (0 < z)%Z → returns (energy_derivative m PInf (PyInt z)) (Fin 0)).
Proof.
  unfold returns, raises. rewrite energy_PInf, direct_substitution_PInf. simpl.
  split; [|split].
  - intros H. by rewrite decide_False.
  - intros H. by rewrite decide_True.
  - intros z Hz. rewrite energy_derivative_PInf; [done|]. left. by exists z.
Qed.

Lemma evaluation_at_infinity_witness :
  returns (energy m_scenario PInf) (Fin (param m_scenario 1 / param m_scenario 2))
  ∧ returns (direct_substitution m_scenario PInf) NaN
  ∧ returns (energy_derivative m_scenario PInf (PyInt 3)) (Fin 0).
Proof.
  split; [|split].
  - apply (proj1 (evaluation_at_infinity m_scenario)). compute_done.
  - apply (proj1 (evaluation_at_infinity m_scenario)). compute_done.
  - apply (proj2 (proj2 (evaluation_at_infinity m_scenario)) 3%Z). compute_done.
Defined.

(** Claim C6, as stated, fails: the model fitted to the energies 0, -1, -2 at
    1, 2, 3 is the line E(N) = 1 - N, with b1 = 0, and [energy(+inf)] raises
    [ZeroDivisionError]. *)
Lemma evaluation_at_infinity_counterexample :
  init d_linear = ([], inr m_linear)
  ∧ raises (energy m_linear PInf) ZeroDivisionError
  ∧ ¬ returns (energy m_linear PInf) (Fin (param m_linear 1 / param m_linear 2)).
Proof. repeat split; compute_done. Qed.

(** Claim C8, as amended: [energy(n_elec)] and [energy_derivative(n_elec,
    order)] raise the [ValueError] of the electron count for every
    [n_elec < 0], [-inf] included, whatever the order is; and for every other
    [n_elec], [energy_derivative] raises the [ValueError] of the order for
    every order that is neither an [int] greater than zero nor the boolean
    [True].  No value is returned in any of these cases. *)
Theorem invalid_arguments_raise (m : RationalGlobalTool) (n_elec : pyfloat)
    (order : pyobj) :
  (negative n_elec →
   raises (energy m n_elec) (ValueError (NegativeElectrons n_elec))
   ∧ raises (energy_derivative m n_elec order)
       (ValueError (NegativeElectrons n_elec)))
  ∧ (¬ negative n_elec → ¬ positive_integer order → order ≠ PyBool true →
     raises (energy_derivative m n_elec order) (ValueError BadOrder)).
Proof.
  unfold raises. split.
  - intros H. by rewrite energy_negative, energy_derivative_negative.
  - apply energy_derivative_bad_order.
Qed.

Lemma invalid_arguments_raise_witness :
  (raises (energy m_scenario (Fin (qfrac (-1) 200)))
     (ValueError (NegativeElectrons (Fin (qfrac (-1) 200))))
   ∧ raises (energy_derivative m_scenario (Fin (qfrac (-1) 200)) (PyInt 1))
       (ValueError (NegativeElectrons (Fin (qfrac (-1) 200)))))
  ∧ raises (energy_derivative m_scenario (Fin (qz 5)) (PyFloat (Fin 1)))
      (ValueError BadOrder).
Proof.
  split.
  - apply (proj1 (invalid_arguments_raise m_scenario (Fin (qfrac (-1) 200)) (PyInt 1))).
    compute_done.
  - apply (proj2 (invalid_arguments_raise m_scenario (Fin (qz 5)) (PyFloat (Fin 1)))).
    + compute_done.
    + by intros (z & _ & ?).
    + done.
Defined.

(** Claim C8, as stated, fails for one order that is not a positive integer:
    the boolean [True] passes the order check, and on the model fitted to the
    energies 0, -1, -4 at 1, 2, 3 [energy_derivative(2, True)] returns -3/2
    and raises nothing. *)
Lemma invalid_order_counterexample :
  init d_pole = ([], inr m_pole)
  ∧ ¬ positive_integer (PyBool true)
  ∧ energy_derivative m_pole (Fin (qz 2)) (PyBool true)
    = ([], inr (Fin (qfrac (-3) 2)))
  ∧ ¬ ∃ e, raises (energy_derivative m_pole (Fin (qz 2)) (PyBool true)) e.
Proof.
  assert (energy_derivative m_pole (Fin (qz 2)) (PyBool true)
          = ([], inr (Fin (qfrac (-3) 2)))) as H by compute_done.
  split; [compute_done|]. split; [by intros (z & _ & ?)|]. split; [done|].
  intros [e He]. unfold raises in He. rewrite H in He. discriminate.
Qed.

(** Claim C10, as amended: for every model and every finite [n_elec >= 0],
    [energy_derivative(n_elec, True)] passes the order check and does what
    [energy_derivative(n_elec, 1)] does, warnings included, and never raises
    the [ValueError] of the order.  In exact arithmetic (no rounding and no
    overflow; the [OverflowError] of Python floats when (1 + b1 n_elec)^2
    leaves the float range is outside the statement) it returns the first
    derivative (a1 - a0 b1) / (1 + b1 n_elec)^2 where [1 + b1 * n_elec <> 0],
    and raises [ZeroDivisionError] where [1 + b1 * n_elec = 0]. *)
Theorem order_True_is_order_1 (m : RationalGlobalTool) (q : Qc) :
  0 ≤ q →
  energy_derivative m (Fin q) (PyBool true) = energy_derivative m (Fin q) (PyInt 1)
  ∧ ¬ raises (energy_derivative m (Fin q) (PyBool true)) (ValueError BadOrder)
  ∧ (1 + param m 2 * q ≠ 0 →
     returns (energy_derivative m (Fin q) (PyBool true))
       (Fin ((param m 1 - param m 0 * param m 2) / (1 + param m 2 * q) ^ 2)))
  ∧ (1 + param m 2 * q = 0 →
     raises (energy_derivative m (Fin q) (PyBool true)) ZeroDivisionError).
Proof.
  intros Hq. unfold returns, raises.
  rewrite (energy_derivative_Fin m q (PyInt 1)) by (try done; left; by exists 1%Z).
  rewrite (energy_derivative_Fin m q (PyBool true)) by (try done; by right).
  change (Z.to_nat (int_value (PyBool true))) with 1%nat.
  change (Z.to_nat (int_value (PyInt 1))) with 1%nat.
  rewrite derivative_formula_1. simpl.
  split; [done|]. split; [by case_decide|].
  split; intros H; [by rewrite decide_False | by rewrite decide_True].
Qed.

Lemma order_True_is_order_1_witness :
  energy_derivative m_scenario (Fin (qz 2)) (PyBool true)
  = energy_derivative m_scenario (Fin (qz 2)) (PyInt 1)
  ∧ ¬ raises (energy_derivative m_scenario (Fin (qz 2)) (PyBool true))
        (ValueError BadOrder)
  ∧ (1 + param m_scenario 2 * qz 2 ≠ 0 →
     returns (energy_derivative m_scenario (Fin (qz 2)) (PyBool true))
       (Fin ((param m_scenario 1 - param m_scenario 0 * param m_scenario 2)
             / (1 + param m_scenario 2 * qz 2) ^ 2)))
  ∧ (1 + param m_scenario 2 * qz 2 = 0 →
     raises (energy_derivative m_scenario (Fin (qz 2)) (PyBool true))
       ZeroDivisionError).
Proof. apply (order_True_is_order_1 m_scenario (qz 2)). compute_done. Defined.

(** Claim C10, as stated, fails: on the model fitted to the energies 0, -1, -4
    at 1, 2, 3, [energy_derivative(4, True)] passes the order check and then
    raises [ZeroDivisionError]; no derivative is returned. *)
Lemma order_True_counterexample :
  init d_pole = ([], inr m_pole)
  ∧ 0 ≤ qz 4
  ∧ raises (energy_derivative m_pole (Fin (qz 4)) (PyBool true)) ZeroDivisionError
  ∧ ¬ ∃ v, returns (energy_derivative m_pole (Fin (qz 4)) (PyBool true)) v.
Proof.
  assert (raises (energy_derivative m_pole (Fin (qz 4)) (PyBool true))
            ZeroDivisionError) as H by compute_done.
  repeat split; try compute_done.
  intros [v Hv]. unfold returns in Hv. unfold raises in H. congruence.
Qed.

(** ** The grand potential *)

(** Claim C7: for every model and every electron count N,
    [grand_potential_derivative(N, 1)] returns [-N]; in particular for every
    N of the domain [N >= 0]. *)
Theorem grand_potential_derivative_order_1
    (higher_order : RationalGlobalTool → pyfloat → positive → M pyfloat)
    (m : RationalGlobalTool) (n_elec : pyfloat) :
  grand_potential_derivative higher_order m n_elec 1 = ([], inr (fopp n_elec))
  ∧ ∀ q, n_elec = Fin q →
      returns (grand_potential_derivative higher_order m n_elec 1) (Fin (- q)).
Proof. split; [done|]. by intros q ->. Qed.

Lemma grand_potential_derivative_order_1_witness :
  returns (grand_potential_derivative (λ _ _ _, mret NaN) m_scenario
             (Fin (qfrac 7 5)) 1)
    (Fin (- qfrac 7 5)).
Proof.
  apply (proj2 (grand_potential_derivative_order_1 (λ _ _ _, mret NaN) m_scenario
                  (Fin (qfrac 7 5))) (qfrac 7 5)).
  reflexivity.
Defined.

(** ** The local tool *)

Section LocalProperties.

Context {global_tool scalar_name : Type}.
Variable scalar : global_tool → scalar_name → Qc.

Abbreviation tool := (LocalTool.t global_tool).
Abbreviation descriptor := (LocalTool.descriptor scalar_name).
Abbreviation eval := (LocalTool.eval global_tool scalar_name scalar).
Abbreviation present := (LocalTool.present global_tool).
Abbreviation required := (LocalTool.required scalar_name).

Lemma elem_of_inputs_absent (self : tool) (l : list LocalTool.input) :
  (∃ i, i ∈ l ∧ present self i = false)
  ↔ existsb (λ i, negb (present self i)) l = true.
Proof.
  rewrite existsb_exists. split; intros (i & Hi & Hp); exists i.
  - split; [by apply list_elem_of_In|]. by rewrite Hp.
  - split; [by apply list_elem_of_In|]. by apply negb_true_iff.
Qed.

Lemma ff_None (self : tool) (f : LocalTool.fukui) :
  LocalTool.ff global_tool self f = None
  ↔ ∃ i, i ∈ LocalTool.fukui_inputs f ∧ present self i = false.
Proof.
  rewrite elem_of_inputs_absent.
  by destruct self as [[p|] [mi|] g], f.
Qed.

Lemma dual_descriptor_None (self : tool) :
  LocalTool.dual_descriptor global_tool self = None
  ↔ ∃ i, i ∈ [LocalTool.FFPlus; LocalTool.FFMinus] ∧ present self i = false.
Proof.
  rewrite elem_of_inputs_absent.
  by destruct self as [[p|] [mi|] g].
Qed.

Lemma eval_None (self : tool) (d : descriptor) :
  eval self d = None ↔ ∃ i, i ∈ required d ∧ present self i = false.
Proof.
  destruct d as [f| |s f]; simpl.
  - apply ff_None.
  - apply dual_descriptor_None.
  - unfold LocalTool.scaled. split.
    + destruct (LocalTool._global global_tool self) as [g|] eqn:Hg.
      * destruct (LocalTool.ff global_tool self f) eqn:Hf; [done|].
        intros _. apply ff_None in Hf as (i & Hi & Hp).
        exists i. split; [by apply list_elem_of_further | done].
      * intros _. exists LocalTool.GlobalInstance.
        split; [apply list_elem_of_here|]. simpl. by rewrite Hg.
    + intros (i & Hi & Hp). apply elem_of_cons in Hi as [-> | Hi].
      * simpl in Hp. by destruct (LocalTool._global global_tool self).
      * assert (LocalTool.ff global_tool self f = None) as ->
          by (apply ff_None; eauto).
        by destruct (LocalTool._global global_tool self).
Qed.

(** Claim C9: a local tool constructed with no input gives [None] for every
    descriptor; and for every local tool, a descriptor one of whose required
    inputs (FF+, FF-, the global tool) is absent evaluates to [None], and
    only such a descriptor does: with every required input present it is an
    array.  The evaluation has no error outcome. *)
Theorem absent_input_gives_None :
  (∀ d : descriptor, eval (LocalTool.empty global_tool) d = None)
  ∧ (∀ (self : tool) (d : descriptor) i,
       i ∈ required d → present self i = false → eval self d = None)
  ∧ (∀ (self : tool) (d : descriptor),
       (∀ i, i ∈ required d → present self i = true) → is_Some (eval self d)).
Proof.
  split; [|split].
  - intros d. apply eval_None. destruct d as [[]| |s []]; simpl;
      eexists; (split; [apply list_elem_of_here | done]).
  - intros self d i Hi Hp. apply eval_None. eauto.
  - intros self d Hall. apply not_eq_None_Some. intros (i & Hi & Hp)%eval_None.
    rewrite (Hall i Hi) in Hp. discriminate.
Qed.

End LocalProperties.

Lemma absent_input_gives_None_witness :
  LocalTool.eval unit unit (λ _ _, 1)
    (LocalTool.mk unit (Some [qz 1; qz 2]) None None)
    (LocalTool.FF unit LocalTool.Zero) = None.
Proof.
  apply (proj1 (proj2 (absent_input_gives_None (λ _ _ : unit, 1)))
           (LocalTool.mk unit (Some [qz 1; qz 2]) None None)
           (LocalTool.FF unit LocalTool.Zero) LocalTool.FFMinus).
  - simpl. apply list_elem_of_further, list_elem_of_here.
  - reflexivity.
Defined.

(** * Further properties of rational.py *)

(** ** What the constructor accepts *)

(** The constructor returns a model only for a unit-spaced triple around
    [n0 >= 1] with E(n0-1) > E(n0) >= E(n0+1) whose [b1] denominator is not
    zero; the model then has [n0] as reference count, the closed form as
    parameters and [+inf] as [n_max], and nothing was logged. *)
Theorem init_accepts_only_valid (d : gmap Qc Qc) (m : RationalGlobalTool) :
  returns (init d) m →
  ∃ e_m e_0 e_p,
    d = triple (_n0 m) e_m e_0 e_p
    ∧ 1 ≤ _n0 m ∧ e_0 < e_m ∧ e_p ≤ e_0
    ∧ b1_denominator (_n0 m) e_m e_0 e_p ≠ 0
    ∧ params m = closed_form (_n0 m) e_m e_0 e_p
    ∧ _n_max m = PInf
    ∧ warnings (init d) = [].
Proof.
  unfold returns, warnings.
  destruct (init_cases d) as
    [[Hinit Hv] | (lo & mid & hi & e_lo & e_mid & e_hi & Hs & Hlo &
       [[Hmid Hinit] | [(Hmid & Hne & Hinit) | [(Hmid & Hd & Hmono & Hinit)
         | (Hmid & Hd & Hm & Hp & Hinit)]]])];
    rewrite Hinit; try done.
  destruct (decide (b1_denominator mid e_lo e_mid e_hi = 0)) as [|HD]; [done|].
  intros [= <-]. simpl. exists e_lo, e_mid, e_hi. by repeat split.
Qed.

Lemma init_accepts_only_valid_witness :
  ∃ e_m e_0 e_p,
    d_pole = triple (_n0 m_pole) e_m e_0 e_p
    ∧ 1 ≤ _n0 m_pole ∧ e_0 < e_m ∧ e_p ≤ e_0
    ∧ b1_denominator (_n0 m_pole) e_m e_0 e_p ≠ 0
    ∧ params m_pole = closed_form (_n0 m_pole) e_m e_0 e_p
    ∧ _n_max m_pole = PInf
    ∧ warnings (init d_pole) = [].
Proof. apply (init_accepts_only_valid d_pole m_pole). compute_done. Defined.

(** The constructor raises [ZeroDivisionError] exactly on the triples that
    pass the validation and have a zero [b1] denominator; it raises nothing
    else than that and [ValueError]. *)
Theorem init_zero_division_iff (d : gmap Qc Qc) :
  (raises (init d) ZeroDivisionError
   ↔ ∃ n0 e_m e_0 e_p,
       d = triple n0 e_m e_0 e_p ∧ 1 ≤ n0 ∧ e_0 < e_m ∧ e_p ≤ e_0
       ∧ b1_denominator n0 e_m e_0 e_p = 0)
  ∧ (∀ e, raises (init d) e → e = ZeroDivisionError ∨ ∃ v, e = ValueError v).
Proof.
  unfold raises. split; [split|].
  - destruct (init_cases d) as
      [[Hinit Hv] | (lo & mid & hi & e_lo & e_mid & e_hi & Hs & Hlo &
         [[Hmid Hinit] | [(Hmid & Hne & Hinit) | [(Hmid & Hd & Hmono & Hinit)
           | (Hmid & Hd & Hm & Hp & Hinit)]]])];
      rewrite Hinit; try done.
    destruct (decide (b1_denominator mid e_lo e_mid e_hi = 0)) as [HD|]; [|done].
    intros _. by exists mid, e_lo, e_mid, e_hi.
  - intros (n0 & e_m & e_0 & e_p & -> & Hn0 & Hm & Hp & HD).
    by rewrite init_zero_denominator.
  - intros e. destruct (init d) as [ws [e'|m]]; simpl; [|done].
    intros [= <-]. destruct e'; eauto.
Qed.

Lemma init_zero_division_iff_witness : raises (init d_singular) ZeroDivisionError.
Proof.
  apply (proj1 (init_zero_division_iff d_singular)).
  exists (qz 2), (qz 4), (qz 1), (qz 0). repeat split; compute_done.
Defined.

(** ** Sampling a rational function and fitting it again *)

Section Sampled.

Variables a0 a1 b1 n0 : Qc.
Hypothesis den_m : 1 + b1 * (n0 - 1) ≠ 0.
Hypothesis den_0 : 1 + b1 * n0 ≠ 0.
Hypothesis den_p : 1 + b1 * (n0 + 1) ≠ 0.

Let e_m : Qc := rational a0 a1 b1 (n0 - 1).
Let e_0 : Qc := rational a0 a1 b1 n0.
Let e_p : Qc := rational a0 a1 b1 (n0 + 1).
Let dens : Qc := (1 + b1 * (n0 - 1)) * (1 + b1 * n0) * (1 + b1 * (n0 + 1)).

Lemma sampled_step_down : e_0 - e_m = (a1 - a0 * b1) / ((1 + b1 * (n0 - 1)) * (1 + b1 * n0)).
Proof. unfold e_0, e_m, rational. by field. Qed.

Lemma sampled_curvature :
  e_p - 2 * e_0 + e_m = - (2 * b1 * (a1 - a0 * b1)) / dens.
Proof. unfold e_p, e_0, e_m, rational, dens. by field. Qed.

Lemma sampled_denominator :
  b1_denominator n0 e_m e_0 e_p = 2 * (a1 - a0 * b1) / dens.
Proof. unfold b1_denominator, e_p, e_0, e_m, rational, dens. by field. Qed.

Lemma sampled_closed_form :
  a1 - a0 * b1 ≠ 0 → closed_form n0 e_m e_0 e_p = [a0; a1; b1].
Proof.
  intros HK. unfold closed_form.
  assert (- (e_p - 2 * e_0 + e_m) / b1_denominator n0 e_m e_0 e_p = b1) as ->.
  { rewrite sampled_curvature, sampled_denominator. unfold dens. by field. }
  cbv zeta. f_equal; [|f_equal]; unfold e_p, e_0, rational; by field.
Qed.

End Sampled.

(** Evaluate, then fit: the energies of a rational function at [n0 - 1], [n0],
    [n0 + 1], when they pass the validation, give back the parameters
    [a0], [a1], [b1] of that function. *)
Theorem init_recovers_parameters (a0 a1 b1 n0 : Qc) :
  1 ≤ n0 →
  1 + b1 * (n0 - 1) ≠ 0 → 1 + b1 * n0 ≠ 0 → 1 + b1 * (n0 + 1) ≠ 0 →
  rational a0 a1 b1 n0 < rational a0 a1 b1 (n0 - 1) →
  rational a0 a1 b1 (n0 + 1) ≤ rational a0 a1 b1 n0 →
  init (triple n0 (rational a0 a1 b1 (n0 - 1)) (rational a0 a1 b1 n0)
          (rational a0 a1 b1 (n0 + 1)))
  = ([], inr (mkTool [a0; a1; b1] n0 PInf)).
Proof.
  intros Hn0 Hm H0 Hp Hlt Hle.
  assert (a1 - a0 * b1 ≠ 0) as HK.
  { intros HK. apply (Qclt_not_eq _ _ Hlt).
    pose proof (sampled_step_down a0 a1 b1 n0 Hm H0) as Hstep.
    rewrite HK in Hstep.
    assert (rational a0 a1 b1 n0 - rational a0 a1 b1 (n0 - 1) = 0) as Hz
      by (rewrite Hstep; by field).
    revert Hz. qc_lra. }
  rewrite init_closed_form; try done.
  - by rewrite sampled_closed_form.
  - rewrite sampled_denominator by done.
    apply Qcdiv_nonzero.
    + intros [H|H]%Qcmult_integral; [|done]. revert H. by compute.
    + intros [[H|H]%Qcmult_integral|H]%Qcmult_integral; contradiction.
Qed.

Lemma init_recovers_parameters_witness :
  init (triple (qz 2) (rational (qfrac 1 2) (qfrac (-11) 5) (qfrac 7 10) (qz 2 - 1))
          (rational (qfrac 1 2) (qfrac (-11) 5) (qfrac 7 10) (qz 2))
          (rational (qfrac 1 2) (qfrac (-11) 5) (qfrac 7 10) (qz 2 + 1)))
  = ([], inr (mkTool [qfrac 1 2; qfrac (-11) 5; qfrac 7 10] (qz 2) PInf)).
Proof. apply init_recovers_parameters; compute_done. Defined.

(** ** Signs of products and quotients *)

Ltac qc_nra :=
  intros;
  repeat match goal with
  | H : @eq Qc _ _ |- _ => apply Qc_this_eq in H
  | H : ¬ @eq Qc _ _ |- _ => rewrite Qc_this_eq in H
  | |- @eq Qc _ _ => apply Qc_this_eq
  | |- ¬ @eq Qc _ _ => rewrite Qc_this_eq
  end;
  unfold Qcle, Qclt in *;
  repeat match goal with
  | H : _ |- _ => first [ rewrite Qc_this_minus in H | rewrite Qc_this_plus in H
                        | rewrite Qc_this_opp in H | rewrite Qc_this_mult in H ]
  end;
  rewrite ?Qc_this_minus, ?Qc_this_plus, ?Qc_this_opp, ?Qc_this_mult;
  simpl this in *;
  repeat match goal with
  | H : _ |- _ => rewrite Qred_correct in H
  end;
  rewrite ?Qred_correct; nra.

Lemma Qcmult_neg_neg (x y : Qc) : x < 0 → y < 0 → 0 < x * y.
Proof. qc_nra. Qed.

Lemma Qcmult_pos_neg (x y : Qc) : 0 < x → y < 0 → x * y < 0.
Proof. qc_nra. Qed.

Lemma Qcmult_pos_nonpos (x y : Qc) : 0 < x → y ≤ 0 → x * y ≤ 0.
Proof. qc_nra. Qed.

Lemma Qc_two_pos : (0 : Qc) < 2.
Proof. qc_lra. Qed.

(** The sign of the numerator of every derivative of a fitted model. *)
Lemma slope_numerator_nonpos (e_m e_0 e_p : Qc) :
  e_0 < e_m → e_p ≤ e_0 →
  2 * ((e_p - e_m) * (e_0 - e_m) * (e_p - e_0)) ≤ 0.
Proof.
  intros Hm Hp. apply Qcmult_pos_nonpos; [apply Qc_two_pos|].
  apply Qcmult_pos_nonpos; [|revert Hp; qc_lra].
  apply Qcmult_neg_neg; revert Hm Hp; qc_lra.
Qed.

Lemma slope_numerator_neg (e_m e_0 e_p : Qc) :
  e_0 < e_m → e_p < e_0 →
  2 * ((e_p - e_m) * (e_0 - e_m) * (e_p - e_0)) < 0.
Proof.
  intros Hm Hp. apply Qcmult_pos_neg; [apply Qc_two_pos|].
  apply Qcmult_pos_neg; [|revert Hp; qc_lra].
  apply Qcmult_neg_neg; revert Hm Hp; qc_lra.
Qed.

Lemma Qcsquare_pos (x : Qc) : x ≠ 0 → 0 < x ^ 2.
Proof.
  intros Hx. simpl. rewrite Qcmult_1_r.
  destruct (Qclt_le_dec x 0) as [Hneg|Hpos].
  - by apply Qcmult_neg_neg.
  - apply Qcmult_pos_pos; by apply Qcle_lt_or_eq in Hpos as [|<-].
Qed.

Lemma Qcdiv_neg_pos (x y : Qc) : x < 0 → 0 < y → x / y < 0.
Proof.
  intros Hx Hy. unfold Qcdiv.
  pose proof (Qcinv_pos _ Hy) as Hinv.
  rewrite <- (Qcmult_0_l (/ y)). by apply Qcmult_lt_compat_r.
Qed.

Lemma Qcdiv_nonpos_pos (x y : Qc) : x ≤ 0 → 0 < y → x / y ≤ 0.
Proof.
  intros [Hx| ->]%Qcle_lt_or_eq Hy.
  - by apply Qclt_le_weak, Qcdiv_neg_pos.
  - unfold Qcdiv. by rewrite Qcmult_0_l.
Qed.

(** ** The fitted model in terms of the three energies *)

Lemma factorial_2 : factorial 2 = 2.
Proof. by apply Qc_is_canon. Qed.

Lemma order_PyInt (z : Z) :
  (0 < z)%Z → positive_integer (PyInt z) ∨ PyInt z = PyBool true.
Proof. intros Hz. left. by exists z. Qed.

Lemma returns_closed_form n0 e_m e_0 e_p (m : RationalGlobalTool) :
  1 ≤ n0 → e_0 < e_m → e_p ≤ e_0 →
  returns (init (triple n0 e_m e_0 e_p)) m →
  b1_denominator n0 e_m e_0 e_p ≠ 0
  ∧ m = mkTool (closed_form n0 e_m e_0 e_p) n0 PInf.
Proof.
  intros Hn0 Hm Hp. unfold returns. rewrite init_triple by done.
  destruct (decide (b1_denominator n0 e_m e_0 e_p = 0)); [done|].
  by intros [= <-].
Qed.

Section Fitted.

Variables n0 e_m e_0 e_p : Qc.
Hypothesis denominator_nonzero : b1_denominator n0 e_m e_0 e_p ≠ 0.

Let b1 : Qc := - (e_p - 2 * e_0 + e_m) / b1_denominator n0 e_m e_0 e_p.
Let a1 : Qc := (1 + b1 * n0) * (e_p - e_0) + b1 * e_p.
Let a0 : Qc := - a1 * n0 + e_0 * (1 + b1 * n0).

Lemma closed_form_parameters : closed_form n0 e_m e_0 e_p = [a0; a1; b1].
Proof. reflexivity. Qed.

(** The numerator [a1 - a0 * b1] of every derivative. *)
Lemma fitted_slope :
  a1 - a0 * b1
  = 2 * ((e_p - e_m) * (e_0 - e_m) * (e_p - e_0))
    / b1_denominator n0 e_m e_0 e_p ^ 2.
Proof.
  unfold a0, a1, b1. unfold b1_denominator in *. cbn [Qcpower]. by field.
Qed.

(** The denominator [1 + b1 * N] at any electron count. *)
Lemma fitted_denominator (q : Qc) :
  1 + b1 * q
  = ((e_p - e_m) - (e_p - 2 * e_0 + e_m) * (q - n0))
    / b1_denominator n0 e_m e_0 e_p.
Proof. unfold b1. unfold b1_denominator in *. by field. Qed.

Lemma fitted_b1_zero : b1 = 0 ↔ e_p - 2 * e_0 + e_m = 0.
Proof.
  unfold b1. split.
  - intros H. destruct (decide (e_p - 2 * e_0 + e_m = 0)) as [|Hne]; [done|].
    exfalso. revert H. apply Qcdiv_nonzero; [|done].
    intros H. apply Hne. revert H. qc_lra.
  - intros H. rewrite H. unfold Qcdiv. ring.
Qed.

Lemma fitted_asymptote :
  e_p - 2 * e_0 + e_m ≠ 0 →
  a1 / b1 = (2 * e_m * e_p - e_0 * (e_m + e_p)) / (e_p - 2 * e_0 + e_m).
Proof.
  intros HC. unfold a1, b1. unfold b1_denominator in *. field.
  repeat split; try done; intros H; apply HC; revert H; qc_lra.
Qed.

End Fitted.

(** The chemical potential and the hardness of the fitted model, that is its
    first and second derivative at [n0], in terms of the ionization potential
    [ip = E(n0-1) - E(n0)] and the electron affinity [ea = E(n0) - E(n0+1)]
    of the samples: [-2 ip ea / (ip + ea)] and
    [4 ip ea (ip - ea) / (ip + ea)^2], returned without a warning. *)
Theorem fitted_potential_and_hardness n0 e_m e_0 e_p (m : RationalGlobalTool) :
  1 ≤ n0 → e_0 < e_m → e_p ≤ e_0 →
  returns (init (triple n0 e_m e_0 e_p)) m →
  let ip := e_m - e_0 in
  let ea := e_0 - e_p in
  energy_derivative m (Fin n0) (PyInt 1)
  = ([], inr (Fin (- (2 * ip * ea) / (ip + ea))))
  ∧ energy_derivative m (Fin n0) (PyInt 2)
    = ([], inr (Fin (2 * 2 * ip * ea * (ip - ea) / (ip + ea) ^ 2))).
Proof.
  intros Hn0 Hm Hp [HD ->]%returns_closed_form; try done. intros ip ea.
  assert (e_p - e_m ≠ 0) as Hpm by (revert Hm Hp; qc_lra).
  assert (ip + ea ≠ 0) as Hsum by (unfold ip, ea; revert Hm Hp; qc_lra).
  assert (0 ≤ n0) as Hpos by (revert Hn0; qc_lra).
  rewrite !energy_derivative_Fin by (try done; by apply order_PyInt).
  rewrite closed_form_parameters, !param_0, !param_1, !param_2.
  rewrite decide_True by (split; simpl; qc_lra).
  assert (1 + - (e_p - 2 * e_0 + e_m) / b1_denominator n0 e_m e_0 e_p * n0 ≠ 0)
    as Hden.
  { rewrite fitted_denominator by done. apply Qcdiv_nonzero; [|done].
    intros H; apply Hpm; revert H; qc_lra. }
  rewrite !decide_False by done.
  change (Z.to_nat (int_value (PyInt 1))) with 1%nat.
  change (Z.to_nat (int_value (PyInt 2))) with 2%nat.
  rewrite derivative_formula_1. unfold derivative_formula.
  rewrite factorial_2, fitted_slope, !fitted_denominator by done.
  change (2 - 1)%nat with 1%nat. change (2 + 1)%nat with 3%nat.
  unfold ip, ea. cbn [Qcpower].
  split; apply (f_equal (λ v, ([], inr (Fin v))));
    field; repeat split; try done;
    intros H; apply Hpm; revert H; qc_lra.
Qed.

Lemma fitted_potential_and_hardness_witness :
  let ip := qz 0 - qz (-1) in
  let ea := qz (-1) - qz (-4) in
  energy_derivative m_pole (Fin (qz 2)) (PyInt 1)
  = ([], inr (Fin (- (2 * ip * ea) / (ip + ea))))
  ∧ energy_derivative m_pole (Fin (qz 2)) (PyInt 2)
    = ([], inr (Fin (2 * 2 * ip * ea * (ip - ea) / (ip + ea) ^ 2))).
Proof.
  apply (fitted_potential_and_hardness (qz 2) (qz 0) (qz (-1)) (qz (-4)) m_pole);
    compute_done.
Defined.

(** The value of the fitted model at [n_max = +inf] depends on the three
    energies only: it is (2 E- E+ - E0 (E- + E+)) / (E+ - 2 E0 + E-); and
    [energy(+inf)] raises [ZeroDivisionError] exactly when the three energies
    are equally spaced, E+ - 2 E0 + E- = 0. *)
Theorem fitted_energy_at_infinity n0 e_m e_0 e_p (m : RationalGlobalTool) :
  1 ≤ n0 → e_0 < e_m → e_p ≤ e_0 →
  returns (init (triple n0 e_m e_0 e_p)) m →
  (e_p - 2 * e_0 + e_m ≠ 0 →
   returns (energy m (_n_max m))
     (Fin ((2 * e_m * e_p - e_0 * (e_m + e_p)) / (e_p - 2 * e_0 + e_m))))
  ∧ (raises (energy m (_n_max m)) ZeroDivisionError
     ↔ e_p - 2 * e_0 + e_m = 0).
Proof.
  intros Hn0 Hm Hp [HD ->]%returns_closed_form; try done.
  unfold returns, raises. cbn [_n_max]. rewrite energy_PInf.
  rewrite closed_form_parameters, param_1, param_2. cbn [snd].
  pose proof (fitted_b1_zero n0 e_m e_0 e_p HD) as Hb1.
  split.
  - intros HC. rewrite decide_False by by rewrite Hb1.
    by rewrite fitted_asymptote.
  - rewrite <- Hb1. by case_decide.
Qed.

Lemma fitted_energy_at_infinity_witness :
  returns (energy m_pole (_n_max m_pole))
    (Fin ((2 * qz 0 * qz (-4) - qz (-1) * (qz 0 + qz (-4)))
          / (qz (-4) - 2 * qz (-1) + qz 0))).
Proof.
  apply (proj1 (fitted_energy_at_infinity (qz 2) (qz 0) (qz (-1)) (qz (-4)) m_pole
                  ltac:(compute_done) ltac:(compute_done) ltac:(compute_done)
                  ltac:(compute_done))).
  compute_done.
Defined.

(** The first derivative of a fitted model is never positive, wherever it is
    defined; it is negative when E(n0) > E(n0+1) and zero when
    E(n0) = E(n0+1). *)
Theorem fitted_first_derivative_sign n0 e_m e_0 e_p (m : RationalGlobalTool) (q : Qc) :
  1 ≤ n0 → e_0 < e_m → e_p ≤ e_0 →
  returns (init (triple n0 e_m e_0 e_p)) m →
  0 ≤ q → 1 + param m 2 * q ≠ 0 →
  ∃ v, returns (energy_derivative m (Fin q) (PyInt 1)) (Fin v)
       ∧ v ≤ 0 ∧ (e_p < e_0 → v < 0) ∧ (e_p = e_0 → v = 0).
Proof.
  intros Hn0 Hm Hp [HD ->]%returns_closed_form; try done. intros Hq Hden.
  unfold returns.
  rewrite energy_derivative_Fin by (try done; by apply order_PyInt).
  rewrite (decide_False _ _ Hden). cbn [snd].
  change (Z.to_nat (int_value (PyInt 1))) with 1%nat.
  rewrite derivative_formula_1. eexists. split; [reflexivity|].
  revert Hden. rewrite closed_form_parameters, param_0, param_1, param_2.
  intros Hden. rewrite fitted_slope by done.
  pose proof (Qcsquare_pos _ Hden) as Hsq.
  pose proof (Qcsquare_pos _ HD) as HDsq.
  split; [|split].
  - apply Qcdiv_nonpos_pos; [|done]. apply Qcdiv_nonpos_pos; [|done].
    by apply slope_numerator_nonpos.
  - intros Hlt. apply Qcdiv_neg_pos; [|done]. apply Qcdiv_neg_pos; [|done].
    by apply slope_numerator_neg.
  - intros ->. unfold Qcdiv. ring.
Qed.

Lemma fitted_first_derivative_sign_witness :
  ∃ v, returns (energy_derivative m_pole (Fin (qz 6)) (PyInt 1)) (Fin v)
       ∧ v ≤ 0 ∧ (qz (-4) < qz (-1) → v < 0) ∧ (qz (-4) = qz (-1) → v = 0).
Proof.
  apply (fitted_first_derivative_sign (qz 2) (qz 0) (qz (-1)) (qz (-4)) m_pole (qz 6));
    compute_done.
Defined.

(** ** The fitted model on the interpolation interval *)

Lemma Qcmult_nonpos_nonpos (x y : Qc) : x ≤ 0 → y ≤ 0 → 0 ≤ x * y.
Proof. qc_nra. Qed.

Lemma Qcmult_nonneg_nonpos (x y : Qc) : 0 ≤ x → y ≤ 0 → x * y ≤ 0.
Proof. qc_nra. Qed.

(** The difference of two values of a rational function. *)
Lemma rational_difference (a0 a1 b1 p q : Qc) :
  1 + b1 * p ≠ 0 → 1 + b1 * q ≠ 0 →
  rational a0 a1 b1 q - rational a0 a1 b1 p
  = (q - p) * ((a1 - a0 * b1) / ((1 + b1 * p) * (1 + b1 * q))).
Proof. intros Hp Hq. unfold rational. by field. Qed.

(** [1 + b1 * N], times the denominator of [b1], is negative on the
    interpolation interval, its left end excepted when E(n0) = E(n0+1). *)
Lemma interval_denominator_neg (n0 e_m e_0 e_p q : Qc) :
  e_0 < e_m → e_p ≤ e_0 → n0 - 1 ≤ q → q ≤ n0 + 1 →
  e_p < e_0 ∨ n0 - 1 < q →
  (e_p - e_m) - (e_p - 2 * e_0 + e_m) * (q - n0) < 0.
Proof.
  intros Hm Hp Hlo Hhi Hstrict.
  assert (0 ≤ (e_0 - e_p) * (n0 + 1 - q)) as H1
    by (apply Qcmult_nonneg_nonneg; [revert Hp|revert Hhi]; qc_lra).
  assert (0 ≤ (e_m - e_0) * (q - (n0 - 1))) as H2
    by (apply Qcmult_nonneg_nonneg; [revert Hm|revert Hlo]; qc_lra).
  destruct Hstrict as [Hlt|Hlt].
  - assert (0 < (e_0 - e_p) * 2) as H3
      by (apply Qcmult_pos_pos; [revert Hlt; qc_lra | apply Qc_two_pos]).
    destruct (decide (q = n0 - 1)) as [->|Hne].
    + revert H3. clear. qc_lra.
    + assert (0 < (e_m - e_0) * (q - (n0 - 1))) as H4.
      { apply Qcmult_pos_pos; [revert Hm; qc_lra|].
        apply Qcle_lt_or_eq in Hlo as [Hlo|Hlo]; [revert Hlo; qc_lra|].
        by destruct Hne. }
      revert H1 H4. clear. qc_lra.
  - assert (0 < (e_m - e_0) * (q - (n0 - 1))) as H4
      by (apply Qcmult_pos_pos; [revert Hm|revert Hlt]; qc_lra).
    revert H1 H4. clear. qc_lra.
Qed.

Section FittedValues.

Variables n0 e_m e_0 e_p : Qc.
Hypothesis n0_ge_1 : 1 ≤ n0.
Hypothesis step_m : e_0 < e_m.
Hypothesis step_p : e_p ≤ e_0.
Hypothesis denominator_nonzero : b1_denominator n0 e_m e_0 e_p ≠ 0.

Let m : RationalGlobalTool := mkTool (closed_form n0 e_m e_0 e_p) n0 PInf.
Abbreviation value := (rational (param m 0) (param m 1) (param m 2)).
Abbreviation scaled_denominator := (fitted_denominator_numerator n0 e_m e_0 e_p).

Lemma fitted_denominator_m (q : Qc) :
  1 + param m 2 * q = scaled_denominator q / b1_denominator n0 e_m e_0 e_p.
Proof.
  unfold fitted_denominator_numerator. apply fitted_denominator, denominator_nonzero.
Qed.

Lemma fitted_regular (q : Qc) : scaled_denominator q ≠ 0 → 1 + param m 2 * q ≠ 0.
Proof. intros H. rewrite fitted_denominator_m. by apply Qcdiv_nonzero. Qed.

Lemma fitted_pole (q : Qc) : scaled_denominator q = 0 → 1 + param m 2 * q = 0.
Proof. intros H. rewrite fitted_denominator_m, H. unfold Qcdiv. ring. Qed.

(** The model inside the interval: no warning, and the value or the error of
    the division. *)
Lemma fitted_energy_inside (q : Qc) :
  n0 - 1 ≤ q → q ≤ n0 + 1 →
  energy m (Fin q)
  = ([], if decide (scaled_denominator q = 0) then inl ZeroDivisionError
         else inr (Fin (value q))).
Proof.
  intros Hlo Hhi. rewrite energy_Fin by (revert n0_ge_1 Hlo; qc_lra).
  rewrite decide_True by done.
  destruct (decide (scaled_denominator q = 0)) as [Hz|Hnz].
  - by rewrite decide_True by by apply fitted_pole.
  - by rewrite decide_False by by apply fitted_regular.
Qed.

Lemma fitted_difference (p q : Qc) :
  scaled_denominator p ≠ 0 → scaled_denominator q ≠ 0 →
  value q - value p
  = (q - p) * (2 * ((e_p - e_m) * (e_0 - e_m) * (e_p - e_0))
               / (scaled_denominator p * scaled_denominator q)).
Proof.
  intros Hp Hq.
  rewrite rational_difference by by apply fitted_regular.
  rewrite !fitted_denominator_m.
  unfold m. rewrite closed_form_parameters, param_0, param_1, param_2.
  rewrite fitted_slope by done. cbn [Qcpower]. by field.
Qed.

Lemma fitted_value_at_n0 : value n0 = e_0.
Proof.
  unfold rational. apply Qcdiv_eq.
  - apply fitted_regular. unfold fitted_denominator_numerator.
    revert step_m step_p. clear. qc_lra.
  - unfold m. rewrite closed_form_parameters, param_0, param_1, param_2. ring.
Qed.

Lemma fitted_value_at_n0_plus_1 : value (n0 + 1) = e_p.
Proof.
  unfold rational. apply Qcdiv_eq.
  - apply fitted_regular. unfold fitted_denominator_numerator.
    revert step_m step_p. clear. qc_lra.
  - unfold m. rewrite closed_form_parameters, param_0, param_1, param_2. ring.
Qed.

Lemma fitted_value_at_n0_minus_1 : e_p < e_0 → value (n0 - 1) = e_m.
Proof.
  intros Hlt. unfold rational. apply Qcdiv_eq.
  - apply fitted_regular. unfold fitted_denominator_numerator.
    revert step_m Hlt. clear. qc_lra.
  - unfold m. rewrite closed_form_parameters, param_0, param_1, param_2.
    by apply numerator_at_n0_minus_1.
Qed.

End FittedValues.


Lemma Qcle_of_difference (x y z : Qc) : x - y = z → 0 ≤ z → y ≤ x.
Proof. qc_lra. Qed.

Lemma Qcge_of_difference (x y z : Qc) : x - y = z → z ≤ 0 → x ≤ y.
Proof. qc_lra. Qed.

Lemma Qclt_of_difference (x y z : Qc) : x - y = z → z < 0 → x < y.
Proof. qc_lra. Qed.

Lemma interval_numerator_neg (n0 e_m e_0 e_p q : Qc) :
  e_0 < e_m → e_p ≤ e_0 → n0 - 1 ≤ q → q ≤ n0 + 1 →
  ¬ (q = n0 - 1 ∧ e_p = e_0) →
  fitted_denominator_numerator n0 e_m e_0 e_p q < 0.
Proof.
  intros Hm Hp Hlo Hhi Hnot. apply interval_denominator_neg; try done.
  apply Qcle_lt_or_eq in Hp as [Hp|Hp]; [by left|].
  apply Qcle_lt_or_eq in Hlo as [Hlo|Hlo]; [by right|].
  destruct Hnot. by split.
Qed.

(** Inside the interpolation interval [n0 - 1, n0 + 1] a fitted model logs
    nothing and fails at one point at most: [energy] raises
    [ZeroDivisionError] exactly at [n0 - 1] when E(n0) = E(n0+1); everywhere
    else it returns a value between E(n0+1) and E(n0-1). *)
Theorem fitted_energy_on_interval n0 e_m e_0 e_p (m : RationalGlobalTool) (q : Qc) :
  1 ≤ n0 → e_0 < e_m → e_p ≤ e_0 →
  returns (init (triple n0 e_m e_0 e_p)) m →
  n0 - 1 ≤ q → q ≤ n0 + 1 →
  warnings (energy m (Fin q)) = []
  ∧ (raises (energy m (Fin q)) ZeroDivisionError ↔ q = n0 - 1 ∧ e_p = e_0)
  ∧ (¬ (q = n0 - 1 ∧ e_p = e_0) →
     ∃ v, returns (energy m (Fin q)) (Fin v) ∧ e_p ≤ v ∧ v ≤ e_m).
Proof.
  intros Hn0 Hm Hp [HD ->]%returns_closed_form; try done. intros Hlo Hhi.
  unfold warnings, returns, raises.
  rewrite (fitted_energy_inside n0 e_m e_0 e_p Hn0 HD q Hlo Hhi). cbn [fst snd].
  split; [done|].
  pose proof (interval_numerator_neg n0 e_m e_0 e_p q Hm Hp Hlo Hhi) as Hneg.
  split; [split|].
  - case_decide as Hz; [|done]. intros _.
    destruct (decide (q = n0 - 1 ∧ e_p = e_0)) as [|Hnot]; [done|].
    apply Hneg in Hnot. rewrite Hz in Hnot. by apply Qclt_not_eq in Hnot.
  - intros [-> ->]. rewrite decide_True; [done|].
    unfold fitted_denominator_numerator. clear. qc_lra.
  - intros Hnot. pose proof (Hneg Hnot) as Hq.
    rewrite decide_False by by apply Qclt_not_eq.
    eexists. split; [reflexivity|].
    assert (fitted_denominator_numerator n0 e_m e_0 e_p (n0 + 1) < 0) as Hplus
      by (unfold fitted_denominator_numerator; revert Hm Hp; clear; qc_lra).
    pose proof (slope_numerator_nonpos e_m e_0 e_p Hm Hp) as Hslope.
    split.
    + pose proof (fitted_difference n0 e_m e_0 e_p HD (n0 + 1) q
                    (Qclt_not_eq _ _ Hplus) (Qclt_not_eq _ _ Hq)) as Hdiff.
      rewrite (fitted_value_at_n0_plus_1 n0 e_m e_0 e_p Hm Hp HD) in Hdiff.
      apply (Qcle_of_difference _ _ _ Hdiff).
      apply Qcmult_nonpos_nonpos; [revert Hhi; clear; qc_lra|].
      apply Qcdiv_nonpos_pos; [done|]. by apply Qcmult_neg_neg.
    + apply Qcle_lt_or_eq in Hp as [Hp| ->].
      * assert (fitted_denominator_numerator n0 e_m e_0 e_p (n0 - 1) < 0) as Hminus
          by (unfold fitted_denominator_numerator; revert Hm Hp; clear; qc_lra).
        pose proof (fitted_difference n0 e_m e_0 e_p HD (n0 - 1) q
                      (Qclt_not_eq _ _ Hminus) (Qclt_not_eq _ _ Hq)) as Hdiff.
        rewrite (fitted_value_at_n0_minus_1 n0 e_m e_0 e_p Hm HD Hp) in Hdiff.
        apply (Qcge_of_difference _ _ _ Hdiff).
        apply Qcmult_nonneg_nonpos; [revert Hlo; clear; qc_lra|].
        apply Qcdiv_nonpos_pos; [done|]. by apply Qcmult_neg_neg.
      * assert (fitted_denominator_numerator n0 e_m e_0 e_0 n0 < 0) as Hmid
          by (unfold fitted_denominator_numerator; revert Hm; clear; qc_lra).
        pose proof (fitted_difference n0 e_m e_0 e_0 HD n0 q
                      (Qclt_not_eq _ _ Hmid) (Qclt_not_eq _ _ Hq)) as Hdiff.
        rewrite (fitted_value_at_n0 n0 e_m e_0 e_0 Hm (Qcle_refl _) HD) in Hdiff.
        apply Qclt_le_weak, Qcle_lt_trans with e_0; [|done].
        apply (Qcge_of_difference _ _ _ Hdiff).
        match goal with
        | |- ?x ≤ _ => assert (x = 0) as -> by (unfold Qcdiv; ring)
        end.
        apply Qcle_refl.
Qed.

Lemma fitted_energy_on_interval_witness :
  warnings (energy m_pole (Fin (qfrac 5 2))) = []
  ∧ (raises (energy m_pole (Fin (qfrac 5 2))) ZeroDivisionError
     ↔ qfrac 5 2 = qz 2 - 1 ∧ qz (-4) = qz (-1))
  ∧ (¬ (qfrac 5 2 = qz 2 - 1 ∧ qz (-4) = qz (-1)) →
     ∃ v, returns (energy m_pole (Fin (qfrac 5 2))) (Fin v)
          ∧ qz (-4) ≤ v ∧ v ≤ qz 0).
Proof.
  apply (fitted_energy_on_interval (qz 2) (qz 0) (qz (-1)) (qz (-4)) m_pole
           (qfrac 5 2)); compute_done.
Defined.

(** A model fitted to strictly decreasing energies is strictly decreasing on
    the whole interpolation interval: at two counts [p < q] of
    [n0 - 1, n0 + 1], [energy] returns values with E(q) < E(p). *)
Theorem fitted_energy_decreasing n0 e_m e_0 e_p (m : RationalGlobalTool) (p q : Qc) :
  1 ≤ n0 → e_0 < e_m → e_p < e_0 →
  returns (init (triple n0 e_m e_0 e_p)) m →
  n0 - 1 ≤ p → p < q → q ≤ n0 + 1 →
  ∃ v_p v_q,
    energy m (Fin p) = ([], inr (Fin v_p))
    ∧ energy m (Fin q) = ([], inr (Fin v_q))
    ∧ v_q < v_p.
Proof.
  intros Hn0 Hm Hp [HD ->]%returns_closed_form; try done;
    [|by apply Qclt_le_weak].
  intros Hlo Hpq Hhi.
  pose proof (Qclt_le_weak _ _ Hp) as Hp'.
  pose proof (Qclt_le_weak _ _ Hpq) as Hpq'.
  assert (fitted_denominator_numerator n0 e_m e_0 e_p p < 0) as Hnp.
  { apply interval_denominator_neg; try done; [by trans q | by left]. }
  assert (fitted_denominator_numerator n0 e_m e_0 e_p q < 0) as Hnq.
  { apply interval_denominator_neg; try done; [by trans p | by left]. }
  rewrite !(fitted_energy_inside n0 e_m e_0 e_p Hn0 HD) by (try done; by etrans).
  rewrite !decide_False by by apply Qclt_not_eq.
  do 2 eexists. split; [reflexivity|]. split; [reflexivity|].
  pose proof (fitted_difference n0 e_m e_0 e_p HD p q
                (Qclt_not_eq _ _ Hnp) (Qclt_not_eq _ _ Hnq)) as Hdiff.
  apply (Qclt_of_difference _ _ _ Hdiff).
  apply Qcmult_pos_neg; [revert Hpq; clear; qc_lra|].
  apply Qcdiv_neg_pos; [by apply slope_numerator_neg | by apply Qcmult_neg_neg].
Qed.

Lemma fitted_energy_decreasing_witness :
  ∃ v_p v_q,
    energy m_pole (Fin (qfrac 3 2)) = ([], inr (Fin v_p))
    ∧ energy m_pole (Fin (qfrac 5 2)) = ([], inr (Fin v_q))
    ∧ v_q < v_p.
Proof.
  apply (fitted_energy_decreasing (qz 2) (qz 0) (qz (-1)) (qz (-4)) m_pole
           (qfrac 3 2) (qfrac 5 2)); compute_done.
Defined.

(** ** Not-a-number and the order of the checks *)

(** [nan] passes the check [n_elec < 0]: for every model, [energy(nan)] logs
    the out-of-range warning and returns [nan].  In exact arithmetic (no
    overflow; on Python floats lines 119-120 raise [OverflowError] for every
    order from 171 on and for a power of [-b1] out of the float range, before
    [n_elec] is used) so does [energy_derivative(nan, n)] for every accepted
    order: it logs the out-of-range warning and returns [nan]. *)
Theorem nan_is_not_rejected (m : RationalGlobalTool) (order : pyobj) :
  energy m NaN = ([EnergyOutside NaN (_n0 m - 1) (_n0 m + 1)], inr NaN)
  ∧ (positive_integer order ∨ order = PyBool true →
     energy_derivative m NaN order
     = ([DerivativeOutside NaN (_n0 m - 1) (_n0 m + 1)], inr NaN)).
Proof.
  split; [reflexivity|]. intros Horder. unfold energy_derivative.
  cbn [flt fge fle andb negb isinf]. rewrite raise_if_false, warn_if_true.
  rewrite (proj2 (order_check order) Horder). cbn [negb].
  rewrite raise_if_false. cbn [fmul fadd].
  assert (0 < int_value order)%Z as Hpos.
  { destruct Horder as [(z & Hz & ->) | ->]; simpl; lia. }
  replace (Z.to_nat (int_value order + 1)) with (S (Z.to_nat (int_value order)))
    by lia.
  rewrite fpow_NaN, fpow_Fin. reflexivity.
Qed.

Lemma nan_is_not_rejected_witness :
  energy_derivative m_pole NaN (PyInt 2)
  = ([DerivativeOutside NaN (_n0 m_pole - 1) (_n0 m_pole + 1)], inr NaN).
Proof.
  apply (proj2 (nan_is_not_rejected m_pole (PyInt 2))). left. by exists 2%Z.
Defined.

(** [energy_derivative] checks the order after the interval and before the
    special case of infinity: with an order that is not accepted and an
    electron count that is not negative, it logs the out-of-range warning if
    the count is outside [n0 - 1, n0 + 1] and then raises the [ValueError] of
    the order, also at [+inf], where an accepted order gives 0. *)
Theorem bad_order_after_warning (m : RationalGlobalTool) (n_elec : pyfloat)
    (order : pyobj) :
  ¬ negative n_elec → ¬ positive_integer order → order ≠ PyBool true →
  energy_derivative m n_elec order
  = (if decide (inside m n_elec) then []
     else [DerivativeOutside n_elec (_n0 m - 1) (_n0 m + 1)],
     inl (ValueError BadOrder)).
Proof.
  intros Hn Hpos Htrue. unfold energy_derivative.
  assert (flt n_elec 0 = false) as ->
    by (apply not_true_iff_false; by rewrite flt_negative).
  rewrite raise_if_false.
  assert (isinstance_int order && bool_decide (0 < int_value order)%Z = false) as ->
    by (apply not_true_iff_false; rewrite order_check; tauto).
  cbn [negb].
  destruct n_elec as [q| | |]; cbn [inside].
  - rewrite in_range_Fin. case_decide as Hin.
    + by rewrite (bool_decide_eq_true_2 _ Hin).
    + by rewrite (bool_decide_eq_false_2 _ Hin).
  - by rewrite decide_False by tauto.
  - by destruct Hn.
  - by rewrite decide_False by tauto.
Qed.

Lemma bad_order_after_warning_witness :
  energy_derivative m_pole PInf (PyFloat (Fin 1))
  = (if decide (inside m_pole PInf) then []
     else [DerivativeOutside PInf (_n0 m_pole - 1) (_n0 m_pole + 1)],
     inl (ValueError BadOrder)).
Proof.
  apply (bad_order_after_warning m_pole PInf (PyFloat (Fin 1))).
  - by intros [].
  - by intros (z & _ & ?).
  - done.
Defined.

(** ** Successive orders, and the formula of the docstring *)

Lemma Qcpower_plus (x : Qc) (a b : nat) : x ^ (a + b) = x ^ a * x ^ b.
Proof.
  induction a as [|a IH]; simpl.
  - by rewrite Qcmult_1_l.
  - by rewrite IH, Qcmult_assoc.
Qed.

Lemma Qcpower_mult (x y : Qc) (n : nat) : (x * y) ^ n = x ^ n * y ^ n.
Proof.
  induction n as [|n IH]; simpl.
  - by rewrite Qcmult_1_l.
  - rewrite IH. ring.
Qed.

Lemma Qcpower_opp (x : Qc) (n : nat) : (- x) ^ n = (- 1) ^ n * x ^ n.
Proof. rewrite <- Qcpower_mult. by replace (- 1 * x) with (- x) by ring. Qed.

(** Each order of the derivative is the one before times
    [-(n + 1) b1 / (1 + b1 N)], as differentiating once more requires. *)
Theorem energy_derivative_next_order (m : RationalGlobalTool) (q : Qc) (z : Z) :
  0 ≤ q → (0 < z)%Z → 1 + param m 2 * q ≠ 0 →
  ∃ v w,
    returns (energy_derivative m (Fin q) (PyInt z)) (Fin v)
    ∧ returns (energy_derivative m (Fin q) (PyInt (z + 1))) (Fin w)
    ∧ w = v * (- (qz (z + 1) * param m 2) / (1 + param m 2 * q)).
Proof.
  intros Hq Hz Hden. unfold returns.
  rewrite !energy_derivative_Fin by (try done; apply order_PyInt; lia).
  rewrite !(decide_False _ _ Hden). cbn [snd int_value].
  do 2 eexists. split; [reflexivity|]. split; [reflexivity|].
  destruct (Z.to_nat z) as [|k] eqn:Hk; [lia|].
  replace (Z.to_nat (z + 1)) with (S (S k)) by lia.
  replace (z + 1)%Z with (Z.of_nat (S (S k))) by lia.
  by apply derivative_formula_succ.
Qed.

Lemma energy_derivative_next_order_witness :
  ∃ v w,
    returns (energy_derivative m_pole (Fin (qz 2)) (PyInt 3)) (Fin v)
    ∧ returns (energy_derivative m_pole (Fin (qz 2)) (PyInt (3 + 1))) (Fin w)
    ∧ w = v * (- (qz (3 + 1) * param m_pole 2) / (1 + param m_pole 2 * qz 2)).
Proof. apply (energy_derivative_next_order m_pole (qz 2) 3); compute_done. Defined.

(** The value [energy_derivative] returns is the formula of the class
    docstring times [(-(1 + b1 N))^(n - 1)]: the two agree at order 1 and
    differ from order 2 on, in sign and in the power of the denominator. *)
Theorem energy_derivative_against_docstring (m : RationalGlobalTool) (q : Qc) (z : Z) :
  0 ≤ q → (0 < z)%Z → 1 + param m 2 * q ≠ 0 →
  returns (energy_derivative m (Fin q) (PyInt z))
    (Fin (docstring_formula (param m 0) (param m 1) (param m 2) q (Z.to_nat z)
          * (- (1 + param m 2 * q)) ^ (Z.to_nat z - 1))).
Proof.
  intros Hq Hz Hden. unfold returns.
  rewrite energy_derivative_Fin by (try done; by apply order_PyInt).
  rewrite (decide_False _ _ Hden). cbn [snd int_value]. do 2 f_equal.
  unfold derivative_formula, docstring_formula.
  destruct (Z.to_nat z) as [|k] eqn:Hk; [lia|].
  replace (S k - 1)%nat with k by lia.
  replace (2 * S k)%nat with (k + (S k + 1))%nat by lia.
  rewrite (Qcpower_plus _ k (S k + 1)), (Qcpower_opp (param m 2)),
    (Qcpower_opp (1 + param m 2 * q)).
  pose proof (Qcpower_nonzero _ k Hden) as Hk1.
  pose proof (Qcpower_nonzero _ (S k + 1) Hden) as Hk2.
  revert Hk1 Hk2.
  generalize ((1 + param m 2 * q) ^ k) ((1 + param m 2 * q) ^ (S k + 1))
    ((- 1 : Qc) ^ k) (param m 2 ^ k) (factorial (S k)).
  intros dk dk2 s b f Hk1 Hk2. by field.
Qed.

Lemma energy_derivative_against_docstring_witness :
  returns (energy_derivative m_pole (Fin (qz 2)) (PyInt 2))
    (Fin (docstring_formula (param m_pole 0) (param m_pole 1) (param m_pole 2)
            (qz 2) (Z.to_nat 2)
          * (- (1 + param m_pole 2 * qz 2)) ^ (Z.to_nat 2 - 1))).
Proof.
  apply (energy_derivative_against_docstring m_pole (qz 2) 2); compute_done.
Defined.

(** ** The analytical derivatives of the grand potential, from the tests *)

Lemma returns_bind {A B} (c : M A) (k : A → M B) (a : A) (b : B) :
  returns c a → returns (k a) b → returns (c ≫= k) b.
Proof.
  unfold returns, mbind, M_bind, bind. destruct c as [ws [e|a']]; simpl; [done|].
  intros [= ->]. by destruct (k a).
Qed.

Lemma raises_bind {A B} (c : M A) (k : A → M B) (a : A) (e : exn) :
  returns c a → raises (k a) e → raises (c ≫= k) e.
Proof.
  unfold returns, raises, mbind, M_bind, bind.
  destruct c as [ws [e'|a']]; simpl; [done|].
  intros [= ->]. by destruct (k a).
Qed.

Lemma energy_derivative_returns (m : RationalGlobalTool) (q : Qc) (z : Z) :
  0 ≤ q → (0 < z)%Z → 1 + param m 2 * q ≠ 0 →
  returns (energy_derivative m (Fin q) (PyInt z))
    (Fin (derivative_formula (param m 0) (param m 1) (param m 2) q (Z.to_nat z))).
Proof.
  intros Hq Hz Hden. unfold returns.
  rewrite energy_derivative_Fin by (try done; by apply order_PyInt).
  by rewrite (decide_False _ _ Hden).
Qed.

Lemma pydiv_ret (x y : Qc) : y ≠ 0 → pydiv x y = mret (x / y).
Proof. intros Hy. unfold pydiv. by rewrite decide_False. Qed.

Lemma returns_ret {A} (a b : A) : a = b → returns (mret a) b.
Proof. by intros ->. Qed.

Lemma factorial_3 : factorial 3 = qz 3 * 2.
Proof. by rewrite (factorial_succ 2), factorial_2. Qed.

(** With the derivative of a model as [deriv], the two functions that
    [make_analytical_rational_grand_derivatives] builds have closed forms in
    the parameters: [-1 / E''(N)] is [(1 + b1 N)^3 / (2 b1 (a1 - a0 b1))] and
    [E'''(N) / E''(N)^3] is [-3 (1 + b1 N)^5 / (4 b1 (a1 - a0 b1)^2)], the
    value the tests expect of [grand_potential_derivative(n0, 3)]; and both
    raise [ZeroDivisionError] when [b1 (a1 - a0 b1) = 0]. *)
Theorem analytical_grand_derivatives (m : RationalGlobalTool) (q : Qc) :
  0 ≤ q → 1 + param m 2 * q ≠ 0 →
  let slope := param m 1 - param m 0 * param m 2 in
  let deriv := λ n r, energy_derivative m n (PyInt r) in
  let d2omega := (make_analytical_rational_grand_derivatives deriv).1 in
  let d3omega := (make_analytical_rational_grand_derivatives deriv).2 in
  (param m 2 * slope ≠ 0 →
   returns (d2omega (Fin q))
     (Fin ((1 + param m 2 * q) ^ 3 / (2 * param m 2 * slope)))
   ∧ returns (d3omega (Fin q))
       (Fin (- (qz 3 * (1 + param m 2 * q) ^ 5)
             / (2 * 2 * param m 2 * slope ^ 2))))
  ∧ (param m 2 * slope = 0 →
     raises (d2omega (Fin q)) ZeroDivisionError
     ∧ raises (d3omega (Fin q)) ZeroDivisionError).
Proof.
  intros Hq Hden slope deriv d2omega d3omega.
  pose proof (energy_derivative_returns m q 2 Hq eq_refl Hden) as H2.
  pose proof (energy_derivative_returns m q 3 Hq eq_refl Hden) as H3.
  change (Z.to_nat 2) with 2%nat in H2. change (Z.to_nat 3) with 3%nat in H3.
  unfold derivative_formula in H2, H3.
  rewrite factorial_2 in H2. rewrite factorial_3 in H3.
  cbn [Nat.sub Nat.add Qcpower] in H2, H3. fold slope in H2, H3.
  set (d := 1 + param m 2 * q) in *.
  set (v2 := - param m 2 * 1 * slope * 2 / (d * (d * (d * 1)))) in H2.
  set (v3 := - param m 2 * (- param m 2 * 1) * slope * (qz 3 * 2)
             / (d * (d * (d * (d * 1))))) in H3.
  assert (v2 = - (2 * (param m 2 * slope)) / (d * d * d)) as Hv2
    by (unfold v2; by field).
  split.
  - intros Hne.
    assert (param m 2 ≠ 0 ∧ slope ≠ 0) as [Hb HK].
    { split; intros H; apply Hne; rewrite H; ring. }
    assert (v2 ≠ 0) as Hv2ne.
    { rewrite Hv2. apply Qcdiv_nonzero.
      - intros H. apply Hne. revert H. generalize (param m 2 * slope). qc_lra.
      - intros [[H|H]%Qcmult_integral|H]%Qcmult_integral; contradiction. }
    split.
    + apply (returns_bind _ _ _ _ H2). cbn [fdiv].
      rewrite pydiv_ret by done. rewrite bind_ret.
      apply returns_ret. f_equal. unfold v2. cbn [Qcpower]. field.
      repeat split; try done; try (clear; qc_lra);
        intros H; apply Hb; revert H; clear; qc_lra.
    + apply (returns_bind _ _ _ _ H3). apply (returns_bind _ _ _ _ H2).
      rewrite fpow_Fin. cbn [fdiv].
      rewrite pydiv_ret by by apply Qcpower_nonzero.
      rewrite bind_ret.
      apply returns_ret. f_equal. unfold v3, v2. cbn [Qcpower]. field.
      repeat split; try done; try (clear; qc_lra);
        intros H; apply Hb; revert H; clear; qc_lra.
  - intros Hz.
    assert (v2 = 0) as Hv2z by (rewrite Hv2, Hz; unfold Qcdiv; ring).
    split.
    + apply (raises_bind _ _ _ _ H2). unfold raises. cbn [fdiv].
      by rewrite pydiv_zero.
    + apply (raises_bind _ _ _ _ H3). apply (raises_bind _ _ _ _ H2).
      unfold raises. rewrite fpow_Fin. cbn [fdiv].
      rewrite pydiv_zero; [done|]. rewrite Hv2z. apply Qcpower_zero_succ.
Qed.

Lemma analytical_grand_derivatives_witness :
  returns
    ((make_analytical_rational_grand_derivatives
        (λ n r, energy_derivative m_pole n (PyInt r))).1 (Fin (qz 2)))
    (Fin ((1 + param m_pole 2 * qz 2) ^ 3
          / (2 * param m_pole 2
             * (param m_pole 1 - param m_pole 0 * param m_pole 2))))
  ∧ returns
      ((make_analytical_rational_grand_derivatives
          (λ n r, energy_derivative m_pole n (PyInt r))).2 (Fin (qz 2)))
      (Fin (- (qz 3 * (1 + param m_pole 2 * qz 2) ^ 5)
            / (2 * 2 * param m_pole 2
               * (param m_pole 1 - param m_pole 0 * param m_pole 2) ^ 2))).
Proof.
  apply (proj1 (analytical_grand_derivatives m_pole (qz 2)
                  ltac:(compute_done) ltac:(compute_done))).
  compute_done.
Defined.

(** ** Where a fitted model fails *)

(** The electron counts [N >= 0] at which a fitted model divides by zero, in
    terms of the three energies: [energy(N)], and [energy_derivative(N, n)]
    for every accepted order, raise [ZeroDivisionError] exactly when
    (E+ - 2 E0 + E-) (N - n0) = E+ - E-. *)
Theorem fitted_pole_location n0 e_m e_0 e_p (m : RationalGlobalTool) (q : Qc) :
  1 ≤ n0 → e_0 < e_m → e_p ≤ e_0 →
  returns (init (triple n0 e_m e_0 e_p)) m →
  0 ≤ q →
  (raises (energy m (Fin q)) ZeroDivisionError
   ↔ (e_p - 2 * e_0 + e_m) * (q - n0) = e_p - e_m)
  ∧ (∀ z, (0 < z)%Z →
       raises (energy_derivative m (Fin q) (PyInt z)) ZeroDivisionError
       ↔ (e_p - 2 * e_0 + e_m) * (q - n0) = e_p - e_m).
Proof.
  intros Hn0 Hm Hp [HD ->]%returns_closed_form; try done. intros Hq.
  assert (1 + param (mkTool (closed_form n0 e_m e_0 e_p) n0 PInf) 2 * q = 0
          ↔ (e_p - 2 * e_0 + e_m) * (q - n0) = e_p - e_m) as Hpole.
  { split.
    - intros Hz.
      destruct (decide (fitted_denominator_numerator n0 e_m e_0 e_p q = 0))
        as [H|H].
      + unfold fitted_denominator_numerator in H. revert H.
        generalize ((e_p - 2 * e_0 + e_m) * (q - n0)). clear. qc_lra.
      + by apply (fitted_regular n0 e_m e_0 e_p HD) in H.
    - intros H. apply (fitted_pole n0 e_m e_0 e_p HD).
      unfold fitted_denominator_numerator. rewrite H. ring. }
  unfold raises. split.
  - rewrite energy_Fin by done. cbn [snd]. rewrite <- Hpole. by case_decide.
  - intros z Hz.
    rewrite energy_derivative_Fin by (try done; by apply order_PyInt).
    cbn [snd]. rewrite <- Hpole. by case_decide.
Qed.

Lemma fitted_pole_location_witness :
  raises (energy m_pole (Fin (qz 4))) ZeroDivisionError
  ↔ (qz (-4) - 2 * qz (-1) + qz 0) * (qz 4 - qz 2) = qz (-4) - qz 0.
Proof.
  apply (fitted_pole_location (qz 2) (qz 0) (qz (-1)) (qz (-4)) m_pole (qz 4));
    compute_done.
Defined.

(** * Properties of toolbox/alchem.py *)

Section AlchemProperties.

Context {Molecule density external_error : Type}.
Variable Molecule_from_file : string → external_error + Molecule.
Variable compute_density : Molecule → Alchem.ndarray → external_error + density.

Abbreviation alchem_init := (Alchem.init Molecule density external_error compute_density).
Abbreviation alchem_from_file :=
  (Alchem.from_file Molecule density external_error Molecule_from_file compute_density).

Lemma not_three_columns_cases (points : Alchem.ndarray) :
  (Alchem.not_three_columns external_error points = inr true
   ∧ ∀ n, Alchem.shape points ≠ [n; 3%nat])
  ∨ (Alchem.not_three_columns external_error points = inr false
     ∧ ∃ n, Alchem.shape points = [n; 3%nat]).
Proof.
  unfold Alchem.not_three_columns, Alchem.shape_at, Alchem.ndim.
  destruct (Alchem.shape points) as [|r [|c [|c' l]]] eqn:Hshape; simpl.
  - left. split; [done|]. by intros k.
  - left. split; [done|]. by intros k.
  - destruct (Nat.eqb_spec c 3) as [->|Hc]; simpl.
    + right. split; [done|]. by exists r.
    + left. split; [done|]. intros k [= _ ?]. done.
  - left. split; [done|]. by intros k.
Qed.

(** The constructor of [AlchemicalTool] accepts the arrays of shape (n, 3)
    and only them: on any other shape it raises [ValueError] whatever the
    molecule is, [compute_density] not being reached, and it never raises the
    [IndexError] of [points.shape[1]]; on a shape (n, 3) its outcome is the
    one of [compute_density].  [from_file] loads the molecule first: when the
    file cannot be loaded the error of the loader is raised, also for points
    of a wrong shape. *)
Theorem alchemical_tool_shape_check (molecule : Molecule) (points : Alchem.ndarray) :
  ((∀ n, Alchem.shape points ≠ [n; 3%nat]) →
   alchem_init molecule points = inl (Alchem.ValueError external_error))
  ∧ (∀ n, Alchem.shape points = [n; 3%nat] →
       alchem_init molecule points
       = match compute_density molecule points with
         | inl e => inl (Alchem.External external_error e)
         | inr d => inr (Alchem.mkTool Molecule density molecule points d)
         end)
  ∧ alchem_init molecule points ≠ inl (Alchem.IndexError external_error)
  ∧ (∀ fname e, Molecule_from_file fname = inl e →
       alchem_from_file fname points = inl (Alchem.External external_error e)).
Proof.
  unfold Alchem.from_file, Alchem.init.
  destruct (not_three_columns_cases points) as [[-> Hbad] | [-> [n Hn]]];
    repeat split.
  - intros n Hn. by destruct (Hbad n).
  - done.
  - by intros fname e ->.
  - intros Hbad. by destruct (Hbad n).
  - by destruct (compute_density _ _).
  - by intros fname e ->.
Qed.

End AlchemProperties.

Lemma alchemical_tool_shape_check_witness :
  Alchem.init unit unit unit (λ _ _, inr tt) tt (Alchem.mkArray [5%nat] [])
  = inl (Alchem.ValueError unit).
Proof.
  apply (proj1 (alchemical_tool_shape_check (λ _, inr tt) (λ _ _, inr tt) tt
                  (Alchem.mkArray [5%nat] []))).
  by intros n.
Defined.
